(** * paperFinder: the retrieval, aggregation and ranking pipeline

    A shallow embedding of the pure parts of [paper_sources.py],
    [ai_search.py] and [paper_finder.py], with the properties of the
    pipeline stated over it.

    Conventions of the embedding.
    - A Python [str] is a [string] whose characters are read as code
      points below 256; [lower], [strip], [split] and [int] follow
      CPython on that range.
    - A Python [set] of strings or integers is a [gset].
    - A Python [float] score is a rational ([Q]); the embedding vectors
      and their cosine similarity are opaque (a Section variable).
    - [Paper] objects are modelled as values.  The ranker writes
      [relevance_score] and [embedding] in place; here it returns the
      updated records.  The lists handled by the pipeline hold pairwise
      distinct objects, so value semantics loses nothing for the
      properties below. *)

From Stdlib Require Import NArith ZArith QArith Lqa Ascii String DecimalString.
From stdpp Require Import gmap strings list sorting.

Open Scope string_scope.
Open Scope list_scope.

(** ** Python string primitives *)

Module Py.

Definition code (c : ascii) : N := N_of_ascii c.

(** Upper-case letters of the Latin-1 range: A-Z and the accented
    capitals, the multiplication sign excluded. *)
Definition is_upper (c : ascii) : bool :=
  let n := code c in
  ((65 <=? n) && (n <=? 90) ||
   (192 <=? n) && (n <=? 222) && negb (n =? 215))%N.

Definition lower_char (c : ascii) : ascii :=
  if is_upper c then ascii_of_N (code c + 32) else c.

(** [str.lower()] *)
Fixpoint lower (s : string) : string :=
  match s with
  | EmptyString => EmptyString
  | String c s' => String (lower_char c) (lower s')
  end.

(** [str.isspace()] on one character. *)
Definition is_space (c : ascii) : bool :=
  let n := code c in
  ((9 <=? n) && (n <=? 13) || (28 <=? n) && (n <=? 32) ||
   (n =? 133) || (n =? 160))%N.

Fixpoint lstrip (s : string) : string :=
  match s with
  | EmptyString => EmptyString
  | String c s' => if is_space c then lstrip s' else s
  end.

Fixpoint rstrip (s : string) : string :=
  match s with
  | EmptyString => EmptyString
  | String c s' =>
      match rstrip s' with
      | EmptyString => if is_space c then EmptyString else String c EmptyString
      | r => String c r
      end
  end.

(** [str.strip()] *)
Definition strip (s : string) : string := rstrip (lstrip s).

(** [w in text] for two strings *)
Fixpoint contains (w text : string) : bool :=
  String.prefix w text ||
  match text with
  | EmptyString => false
  | String _ t => contains w t
  end.

(** [c in s] for a single character *)
Fixpoint has_char (c : ascii) (s : string) : bool :=
  match s with
  | EmptyString => false
  | String d s' => bool_decide (c = d) || has_char c s'
  end.

(** [str.split(sep)] with a one-character separator: empty pieces are
    kept, and the result always has at least one element. *)
Fixpoint split_on (sep : ascii) (s : string) : list string :=
  match s with
  | EmptyString => [EmptyString]
  | String c s' =>
      if bool_decide (c = sep) then EmptyString :: split_on sep s'
      else match split_on sep s' with
           | [] => [String c EmptyString]
           | w :: ws => String c w :: ws
           end
  end.

(** [str.split()] without argument: pieces between runs of white
    space, no empty piece. *)
Fixpoint split_ws_aux (cur : string) (s : string) : list string :=
  match s with
  | EmptyString => if bool_decide (cur = EmptyString) then [] else [cur]
  | String c s' =>
      if is_space c
      then (if bool_decide (cur = EmptyString) then [] else [cur])
             ++ split_ws_aux EmptyString s'
      else split_ws_aux (cur +:+ String c EmptyString) s'
  end.

Definition split (s : string) : list string := split_ws_aux EmptyString s.

(** Truthiness of an [Optional[str]]: [None] and the empty string are
    false. *)
Definition truthy (o : option string) : bool :=
  match o with
  | Some s => negb (bool_decide (s = EmptyString))
  | None => false
  end.

(** [s[:n]] for [n >= 0] *)
Definition take_str (n : nat) (s : string) : string := String.substring 0 n s.

(** [l[:k]] on a list, for any integer [k]: a negative [k] counts from
    the end. *)
Definition slice_to {A} (k : Z) (l : list A) : list A :=
  if (0 <=? k)%Z then take (Z.to_nat k) l
  else take (Z.to_nat (Z.of_nat (length l) + k)) l.

End Py.

(** ** The record model ([paper_sources.Paper]) *)

Record Paper := mkPaper {
  title : string;
  authors : list string;
  abstract : string;
  year : option Z;
  doi : option string;
  url : option string;
  pdf_url : option string;
  source : string;
  citations : Z;
  venue : option string;
  arxiv_id : option string;
  fields : list string;
  keywords : list string;
  relevance_score : Q;
  embedding : option (list Q)
}.

(** A paper with the dataclass defaults. *)
Definition paper0 (t : string) (au : list string) (ab : string) : Paper :=
  mkPaper t au ab None None None None "" 0 None None [] [] 0 None.

Definition with_ids (p : Paper) (d a : option string) : Paper :=
  mkPaper (title p) (authors p) (abstract p) (year p) d (url p) (pdf_url p)
    (source p) (citations p) (venue p) a (fields p) (keywords p)
    (relevance_score p) (embedding p).

(** ** Aggregator: [PaperAggregator._deduplicate] *)

Module PaperAggregator.

(** The three local variables of [_deduplicate]. *)
Record locals := mkLocals {
  seen_ids : gset string;
  seen_titles : gset string;
  unique_papers : list Paper
}.

(** One pass through the loop body: a state transformer that either
    runs to the end of the body ([Some]) or leaves it early through
    [continue] ([None]). *)
Definition body (A : Type) : Type := locals → locals * option A.

Definition ret {A} (x : A) : body A := λ st, (st, Some x).
Definition continue {A} : body A := λ st, (st, None).
Definition bind {A B} (m : body A) (k : A → body B) : body B :=
  λ st, match m st with
        | (st', Some x) => k x st'
        | (st', None) => (st', None)
        end.

Notation "m >> k" := (bind m (λ _, k)) (at level 62, right associativity).

Definition when (b : bool) (m : body unit) : body unit :=
  if b then m else ret tt.

Definition id_seen (x : string) : body bool :=
  λ st, (st, Some (bool_decide (x ∈ seen_ids st))).
Definition add_id (x : string) : body unit :=
  λ st, (mkLocals ({[x]} ∪ seen_ids st) (seen_titles st) (unique_papers st),
         Some tt).
Definition title_seen (x : string) : body bool :=
  λ st, (st, Some (bool_decide (x ∈ seen_titles st))).
Definition add_title (x : string) : body unit :=
  λ st, (mkLocals (seen_ids st) ({[x]} ∪ seen_titles st) (unique_papers st),
         Some tt).
Definition append (p : Paper) : body unit :=
  λ st, (mkLocals (seen_ids st) (seen_titles st) (unique_papers st ++ [p]),
         Some tt).

(** [if x: if x in seen_ids: continue; seen_ids.add(x)] *)
Definition check_id (o : option string) : body unit :=
  when (Py.truthy o)
    (bind (id_seen (default "" o)) (λ seen,
       if seen then continue else add_id (default "" o))).

Definition loop_body (paper : Paper) : body unit :=
  check_id (doi paper) >>
  check_id (arxiv_id paper) >>
  (let normalized_title := Py.strip (Py.lower (title paper)) in
   bind (title_seen normalized_title) (λ seen,
     if seen then continue
     else add_title normalized_title >> append paper)).

Definition step (st : locals) (paper : Paper) : locals :=
  (loop_body paper st).1.

Definition run (st : locals) (papers : list Paper) : locals :=
  foldl step st papers.

Definition init : locals := mkLocals ∅ ∅ [].

Definition _deduplicate (papers : list Paper) : list Paper :=
  unique_papers (run init papers).

End PaperAggregator.

(** ** Relevance ranker: [ai_search.AISearchEngine] *)

Module AISearchEngine.

(** The embeddings endpoint of the OpenAI client.  A call is identified
    by its rank among the calls made so far and by the text sent; it
    answers with a vector, or raises ([None]). *)
Record Client := mkClient {
  embeddings_create : nat → string → option (list Q)
}.

(** [self.client] is [None] when OpenAI is not configured. *)
Record engine := mkEngine { client : option Client }.

Definition set_score (p : Paper) (s : Q) : Paper :=
  mkPaper (title p) (authors p) (abstract p) (year p) (doi p) (url p)
    (pdf_url p) (source p) (citations p) (venue p) (arxiv_id p) (fields p)
    (keywords p) s (embedding p).

Definition set_embedding (p : Paper) (e : list Q) : Paper :=
  mkPaper (title p) (authors p) (abstract p) (year p) (doi p) (url p)
    (pdf_url p) (source p) (citations p) (venue p) (arxiv_id p) (fields p)
    (keywords p) (relevance_score p) (Some e).

(** [list.sort(key=..., reverse=True)]: a stable sort into descending
    order of the key; [gtb y x] says that the key of [y] is strictly
    above the key of [x]. *)
Fixpoint insert_desc {A} (gtb : A → A → bool) (x : A) (l : list A) : list A :=
  match l with
  | [] => [x]
  | y :: l' => if gtb y x then y :: insert_desc gtb x l' else x :: y :: l'
  end.

Definition sort_desc {A} (gtb : A → A → bool) (l : list A) : list A :=
  foldr (insert_desc gtb) [] l.

Definition Qgtb (a b : Q) : bool := negb (Qle_bool a b).

(** key [p.relevance_score] *)
Definition score_gtb (p q : Paper) : bool :=
  Qgtb (relevance_score p) (relevance_score q).

(** key [(p.relevance_score, p.citations)], compared as a tuple *)
Definition score_citations_gtb (p q : Paper) : bool :=
  Qgtb (relevance_score p) (relevance_score q) ||
  Qeq_bool (relevance_score p) (relevance_score q) &&
  (citations q <? citations p)%Z.

(** Truthiness of [top_k : Optional[int]]. *)
Definition truthy_int (o : option Z) : bool :=
  match o with
  | Some k => negb (k =? 0)%Z
  | None => false
  end.

(** [if top_k: papers = papers[:top_k]] *)
Definition truncate (top_k : option Z) (papers : list Paper) : list Paper :=
  if truthy_int top_k then Py.slice_to (default 0%Z top_k) papers else papers.

(** Truthiness of an [Optional[List[float]]]. *)
Definition truthy_vec (o : option (list Q)) : bool :=
  match o with
  | Some (_ :: _) => true
  | _ => false
  end.

Definition get_embedding (self : engine) (text : string) (calls : nat)
  : option (list Q) * nat :=
  match client self with
  | None => (None, calls)
  | Some c => (embeddings_create c calls (Py.take_str (N.to_nat 8000) text), S calls)
  end.

Definition newline : string := String "010"%char EmptyString.

Definition compute_paper_embedding (self : engine) (paper : Paper) (calls : nat)
  : option (list Q) * nat :=
  let text := title paper +:+ newline +:+ newline +:+ abstract paper in
  get_embedding self text calls.

(** [set(query.lower().split())] *)
Definition query_word_set (query : string) : gset string :=
  list_to_set (Py.split (Py.lower query)).

(** The score the loop of [_rank_by_keywords] assigns to one paper. *)
Definition keyword_score (query_words : gset string) (paper : Paper) : Q :=
  let text := Py.lower (title paper +:+ " " +:+ abstract paper) in
  let word_count :=
    length (List.filter (λ word, Py.contains word text) (elements query_words)) in
  if bool_decide (query_words = ∅) then 0
  else inject_Z (Z.of_nat word_count) / inject_Z (Z.of_nat (size query_words)).

Definition _rank_by_keywords (papers : list Paper) (query : string)
    (top_k : option Z) : list Paper :=
  let query_words := query_word_set query in
  let papers := map (λ paper, set_score paper (keyword_score query_words paper)) papers in
  let papers := sort_desc score_citations_gtb papers in
  truncate top_k papers.

Section Ranker.

(** [sklearn.metrics.pairwise.cosine_similarity] on two vectors. *)
Variable cosine_similarity : list Q → list Q → Q.

(** The body of the scoring loop of [rank_papers_by_query]. *)
Definition score_paper (self : engine) (query_vec : list Q)
    (acc : list Paper * nat) (paper : Paper) : list Paper * nat :=
  let '(ranked_papers, calls) := acc in
  if bool_decide (abstract paper = "") then
    (ranked_papers ++ [set_score paper 0], calls)
  else
    let '(paper_embedding, calls) := compute_paper_embedding self paper calls in
    if truthy_vec paper_embedding then
      let paper_vec := default [] paper_embedding in
      let paper := set_embedding paper paper_vec in
      (ranked_papers ++ [set_score paper (cosine_similarity query_vec paper_vec)],
       calls)
    else (ranked_papers ++ [set_score paper 0], calls).

(** The semantic tier, entered once the query embedding is known. *)
Definition rank_semantic (self : engine) (query_vec : list Q)
    (papers : list Paper) (top_k : option Z) (calls : nat) : list Paper * nat :=
  let '(ranked_papers, calls) := foldl (score_paper self query_vec) ([], calls) papers in
  let ranked_papers := sort_desc score_gtb ranked_papers in
  (truncate top_k ranked_papers, calls).

Definition rank_papers_by_query (self : engine) (papers : list Paper)
    (query : string) (top_k : option Z) (calls : nat) : list Paper * nat :=
  match client self with
  | None => (_rank_by_keywords papers query top_k, calls)
  | Some _ =>
      let '(query_embedding, calls) := get_embedding self query calls in
      if negb (truthy_vec query_embedding) then
        (_rank_by_keywords papers query top_k, calls)
      else rank_semantic self (default [] query_embedding) papers top_k calls
  end.

End Ranker.

End AISearchEngine.

(** ** Filter engine: [ai_search.MultiDimensionalFilter] *)

Module MultiDimensionalFilter.

Import AISearchEngine.

Definition year_ok (start end_ : Z) (p : Paper) : bool :=
  match year p with
  | Some y => negb (y =? 0)%Z && (start <=? y)%Z && (y <=? end_)%Z
  | None => false
  end.

Definition fields_ok (fields_lower : list string) (p : Paper) : bool :=
  existsb (λ f,
    bool_decide (Py.lower f ∈ fields_lower) ||
    existsb (λ fl, Py.contains fl (Py.lower f)) fields_lower) (fields p).

Definition author_ok (author_query : string) (p : Paper) : bool :=
  existsb (λ a, Py.contains author_query (Py.lower a)) (authors p).

Definition venue_ok (venue_query : string) (p : Paper) : bool :=
  Py.truthy (venue p) && Py.contains venue_query (Py.lower (default "" (venue p))).

Definition nonempty {A} (o : option (list A)) : bool :=
  match o with
  | Some (_ :: _) => true
  | _ => false
  end.

(** The seven structural predicates of [filter], applied in the order
    of the source. *)
Definition structural (papers : list Paper) (year_range : option (Z * Z))
    (min_citations : Z) (max_citations : option Z)
    (fields : option (list string)) (has_pdf : bool)
    (author_contains venue_contains : option string) : list Paper :=
  let filtered := papers in
  let filtered :=
    match year_range with
    | Some (start, end_) => List.filter (year_ok start end_) filtered
    | None => filtered
    end in
  let filtered :=
    if (0 <? min_citations)%Z
    then List.filter (λ p, (min_citations <=? citations p)%Z) filtered
    else filtered in
  let filtered :=
    match max_citations with
    | Some m => List.filter (λ p, (citations p <=? m)%Z) filtered
    | None => filtered
    end in
  let filtered :=
    if nonempty fields
    then List.filter (fields_ok (map Py.lower (default [] fields))) filtered
    else filtered in
  let filtered :=
    if has_pdf then List.filter (λ p, Py.truthy (pdf_url p)) filtered
    else filtered in
  let filtered :=
    if Py.truthy author_contains
    then List.filter (author_ok (Py.lower (default "" author_contains))) filtered
    else filtered in
  let filtered :=
    if Py.truthy venue_contains
    then List.filter (venue_ok (Py.lower (default "" venue_contains))) filtered
    else filtered in
  filtered.

Section Filter.

Variable cosine_similarity : list Q → list Q → Q.

Definition filter (ai_engine : engine) (papers : list Paper)
    (year_range : option (Z * Z)) (min_citations : Z)
    (max_citations : option Z) (fields : option (list string))
    (has_pdf : bool) (semantic_query : option string)
    (semantic_threshold : Q) (author_contains venue_contains : option string)
    (calls : nat) : list Paper * nat :=
  let filtered :=
    structural papers year_range min_citations max_citations fields has_pdf
      author_contains venue_contains in
  if Py.truthy semantic_query && bool_decide (is_Some (client ai_engine)) then
    let '(filtered, calls) :=
      rank_papers_by_query cosine_similarity ai_engine filtered
        (default "" semantic_query) None calls in
    (List.filter (λ p, Qle_bool semantic_threshold (relevance_score p)) filtered,
     calls)
  else (filtered, calls).

End Filter.

End MultiDimensionalFilter.

(** ** Source adapters: [paper_sources.SemanticScholarAPI] and [ArxivAPI] *)

(** The items of a Semantic Scholar response.  A key of the JSON object
    is either present with a value of its documented type ([Some]) or
    missing ([None]). *)
Module SemanticScholarAPI.

Record author_item := mkAuthor { name : option string }.
Record field_item := mkField { category : option string }.
Record external_ids := mkExt { DOI : option string; ArXiv : option string }.
Record pdf_info := mkPdf { pdf_info_url : option string }.

Record item := mkItem {
  item_title : option string;
  item_authors : option (list author_item);
  item_abstract : option string;
  item_year : option Z;
  citationCount : option Z;
  item_venue : option string;
  externalIds : option external_ids;
  openAccessPdf : option pdf_info;
  fieldsOfStudy : option (list field_item);
  item_url : option string
}.

(** The [Paper(...)] built from one item. *)
Definition to_paper (it : item) (citation_count : Z) : Paper :=
  let authors := map (λ a, default "" (name a)) (default [] (item_authors it)) in
  let fields := map (λ f, default "" (category f)) (default [] (fieldsOfStudy it)) in
  let ext_ids := default (mkExt None None) (externalIds it) in
  let pdf_url := match openAccessPdf it with
                 | Some info => pdf_info_url info
                 | None => None
                 end in
  {| title := default "" (item_title it);
     authors := authors;
     abstract := default "" (item_abstract it);
     year := item_year it;
     doi := DOI ext_ids;
     arxiv_id := ArXiv ext_ids;
     url := Some (default "" (item_url it));
     pdf_url := pdf_url;
     source := "semantic_scholar";
     citations := citation_count;
     venue := Some (default "" (item_venue it));
     fields := fields;
     keywords := [];
     relevance_score := 0;
     embedding := None |}.

(** The loop over [data.get("data", [])]. *)
Definition loop_body (min_citations : Z) (papers : list Paper) (it : item)
  : list Paper :=
  let citation_count := default 0%Z (citationCount it) in
  if (citation_count <? min_citations)%Z then papers
  else papers ++ [to_paper it citation_count].

(** [search]: [response] is the decoded ["data"] array, or [None] when
    the request raised [RequestException]. *)
Definition search (response : option (list item)) (min_citations : Z)
  : list Paper :=
  match response with
  | Some data => foldl (loop_body min_citations) [] data
  | None => []
  end.

End SemanticScholarAPI.

Module ArxivAPI.

(** The attributes of an [arxiv.Result] the adapter reads. *)
Record result := mkResult {
  result_title : string;
  result_authors : list string;
  summary : string;
  published : option Z;
  result_doi : option string;
  entry_id : string;
  result_pdf_url : option string;
  categories : list string
}.

Definition to_paper (r : result) : Paper :=
  {| title := result_title r;
     authors := result_authors r;
     abstract := summary r;
     year := published r;
     doi := result_doi r;
     arxiv_id := Some (List.last (Py.split_on "/" (entry_id r)) "");
     url := Some (entry_id r);
     pdf_url := result_pdf_url r;
     source := "arxiv";
     citations := 0;
     venue := Some "arXiv";
     fields := categories r;
     keywords := [];
     relevance_score := 0;
     embedding := None |}.

(** [search]: [results] are the results the generator yielded before it
    ended or raised; the exception handler keeps what was appended. *)
Definition search (results : list result) : list Paper :=
  foldl (λ papers r, papers ++ [to_paper r]) [] results.

End ArxivAPI.

(** ** Index selection: [paper_finder._parse_indices] *)

Module PaperFinder.

Definition is_digit (c : ascii) : bool :=
  let n := Py.code c in ((48 <=? n) && (n <=? 57))%N.

Definition digit_val (c : ascii) : Z := Z.of_N (Py.code c) - 48.

(** The digits of a decimal literal: single underscores are allowed
    between digits. *)
Fixpoint digits (acc : Z) (after_underscore : bool) (s : string) : option Z :=
  match s with
  | EmptyString => if after_underscore then None else Some acc
  | String c s' =>
      if is_digit c then digits (10 * acc + digit_val c) false s'
      else if bool_decide (c = "_"%char) && negb after_underscore
           then digits acc true s'
           else None
  end.

Definition unsigned (s : string) : option Z :=
  match s with
  | EmptyString => None
  | String c _ => if is_digit c then digits 0 false s else None
  end.

(** [int(s)] in base ten; [None] stands for [ValueError].  The
    interpreter's cap on the number of digits is not modelled. *)
Definition int (s : string) : option Z :=
  match Py.strip s with
  | String "+" r => unsigned r
  | String "-" r => Z.opp <$> unsigned r
  | r => unsigned r
  end.

(** [start, end = map(int, pieces)]: anything else than two integers
    raises [ValueError]. *)
Definition unpack2 (pieces : list string) : option (Z * Z) :=
  match pieces with
  | [a; b] =>
      match int a, int b with
      | Some start, Some end_ => Some (start, end_)
      | _, _ => None
      end
  | _ => None
  end.

(** [range(a, b)] *)
Definition range (a b : Z) : list Z := seqZ a (b - a).

(** The body of the loop over [indices_str.split(",")]; both
    [except ValueError: continue] leave [selected] as it was. *)
Definition loop_body (selected : gset Z) (part : string) : gset Z :=
  let part := Py.strip part in
  if Py.has_char "-" part then
    match unpack2 (Py.split_on "-" part) with
    | Some (start, end_) => selected ∪ list_to_set (range start (end_ + 1))
    | None => selected
    end
  else
    match int part with
    | Some n => selected ∪ {[n]}
    | None => selected
    end.

(** [sorted(selected)] *)
Definition sorted (selected : gset Z) : list Z :=
  merge_sort Z.le (elements selected).

#[global] Instance Paper_inhabited : Inhabited Paper :=
  populate (paper0 "" [] "").

Definition _parse_indices (papers : list Paper) (indices_str : string)
  : list Paper :=
  if bool_decide (Py.lower indices_str = "all") then papers
  else
    let selected := foldl loop_body ∅ (Py.split_on "," indices_str) in
    map (λ i : Z, papers !!! Z.to_nat (i - 1))
      (List.filter (λ i : Z, (1 <=? i)%Z && (i <=? Z.of_nat (length papers))%Z)
         (sorted selected)).

End PaperFinder.

(** ** Aggregator: [PaperAggregator.search_all] *)

Module SearchAll.

(** [search_all]: [ss_response] and [arxiv_results] are what the two
    providers answer; [min_citations] is the only keyword argument the
    Semantic Scholar adapter uses on its results.  [sources] is [None]
    when the argument is left out. *)
Definition search_all (ss_response : option (list SemanticScholarAPI.item))
    (min_citations : Z) (arxiv_results : list ArxivAPI.result)
    (sources : option (list string)) : list Paper :=
  let sources := default ["semantic_scholar"; "arxiv"] sources in
  let all_papers := [] in
  let all_papers :=
    if bool_decide ("semantic_scholar" ∈ sources)
    then all_papers ++ SemanticScholarAPI.search ss_response min_citations
    else all_papers in
  let all_papers :=
    if bool_decide ("arxiv" ∈ sources)
    then all_papers ++ ArxivAPI.search arxiv_results
    else all_papers in
  PaperAggregator._deduplicate all_papers.

End SearchAll.

(** ** Relevance ranker: [AISearchEngine.find_similar_papers] *)

Module SimilarPapers.

Import AISearchEngine.

Section Similar.

Variable cosine_similarity : list Q → list Q → Q.

(** The body of the scoring loop of [find_similar_papers]. *)
Definition score_candidate (self : engine) (reference_paper : Paper)
    (ref_vec : list Q) (acc : list Paper * nat) (paper : Paper)
  : list Paper * nat :=
  let '(scored, calls) := acc in
  if bool_decide (title paper = title reference_paper) then
    (scored ++ [set_score paper 0], calls)
  else
    let '(paper_embedding, calls) := compute_paper_embedding self paper calls in
    if truthy_vec paper_embedding then
      let paper_vec := default [] paper_embedding in
      (scored ++ [set_score paper (cosine_similarity ref_vec paper_vec)], calls)
    else (scored ++ [set_score paper 0], calls).

Definition find_similar_papers (self : engine) (reference_paper : Paper)
    (candidate_papers : list Paper) (top_k : Z) (calls : nat)
  : list Paper * nat :=
  match client self with
  | None =>
      rank_papers_by_query cosine_similarity self candidate_papers
        (title reference_paper) (Some top_k) calls
  | Some _ =>
      let '(ref_embedding, calls) :=
        compute_paper_embedding self reference_paper calls in
      if negb (truthy_vec ref_embedding) then
        (Py.slice_to top_k candidate_papers, calls)
      else
        let ref_vec := default [] ref_embedding in
        let '(candidate_papers, calls) :=
          foldl (score_candidate self reference_paper ref_vec) ([], calls)
            candidate_papers in
        let candidate_papers := sort_desc score_gtb candidate_papers in
        (Py.slice_to top_k candidate_papers, calls)
  end.

End Similar.

End SimilarPapers.

(** ** The [search] command of [paper_finder]: the year range *)

Module SearchCommand.

Import AISearchEngine.

(** [(year_start, year_end) if year_start or year_end else None]: the
    pair may hold a [None]. *)
Definition year_range_arg (year_start year_end : option Z)
  : option (option Z * option Z) :=
  if truthy_int year_start || truthy_int year_end
  then Some (year_start, year_end) else None.

(** [p.year and start <= p.year <= end] when a bound may be [None]:
    comparing an integer with [None] raises [TypeError] (the outer
    [None]); the chained comparison stops at its first false link. *)
Definition year_test (start end_ : option Z) (p : Paper) : option bool :=
  match year p with
  | None => Some false
  | Some y =>
      if (y =? 0)%Z then Some false
      else
        match start with
        | None => None
        | Some s =>
            if (s <=? y)%Z then
              match end_ with
              | None => None
              | Some e => Some (y <=? e)%Z
              end
            else Some false
        end
  end.

(** The list comprehension of the year filter: the first test that
    raises aborts it. *)
Fixpoint year_stage (start end_ : option Z) (papers : list Paper)
  : option (list Paper) :=
  match papers with
  | [] => Some []
  | p :: papers' =>
      match year_test start end_ p with
      | None => None
      | Some keep =>
          match year_stage start end_ papers' with
          | None => None
          | Some rest => Some (if keep then p :: rest else rest)
          end
      end
  end.

(** The year filter as the command reaches it. *)
Definition year_filter (year_start year_end : option Z) (papers : list Paper)
  : option (list Paper) :=
  match year_range_arg year_start year_end with
  | Some (start, end_) => year_stage start end_ papers
  | None => Some papers
  end.

(** The end of the command: [rank_papers_by_query] with the limit as
    cap, or the first [limit] papers. *)
Definition present (cosine_similarity : list Q → list Q → Q) (ai_engine : engine)
    (ai_rank : bool) (papers : list Paper) (query : string) (limit : Z)
    (calls : nat) : list Paper * nat :=
  if ai_rank
  then rank_papers_by_query cosine_similarity ai_engine papers query (Some limit) calls
  else (Py.slice_to limit papers, calls).

End SearchCommand.

(** ** Session file: [Paper.to_dict], [_store_session_papers] and
    [_load_session_papers] *)

Module Session.

(** One object of the session file.  A key is present with a value of
    the type [to_dict] writes, or it is missing ([None]); for the keys
    [_load_session_papers] reads with [p.get(k)], [None] also stands
    for the JSON [null] that [to_dict] writes for an absent value. *)
Record entry := mkEntry {
  e_title : option string;
  e_authors : option (list string);
  e_abstract : option string;
  e_year : option Z;
  e_doi : option string;
  e_url : option string;
  e_pdf_url : option string;
  e_source : option string;
  e_citations : option Z;
  e_venue : option string;
  e_arxiv_id : option string;
  e_fields : option (list string);
  e_keywords : option (list string);
  e_relevance_score : option Q
}.

(** [Paper.to_dict]: every key but the embedding. *)
Definition to_dict (self : Paper) : entry :=
  {| e_title := Some (title self);
     e_authors := Some (authors self);
     e_abstract := Some (abstract self);
     e_year := year self;
     e_doi := doi self;
     e_url := url self;
     e_pdf_url := pdf_url self;
     e_source := Some (source self);
     e_citations := Some (citations self);
     e_venue := venue self;
     e_arxiv_id := arxiv_id self;
     e_fields := Some (fields self);
     e_keywords := Some (keywords self);
     e_relevance_score := Some (relevance_score self) |}.

(** The [Paper(...)] built from one object; [p["title"]],
    [p["authors"]] and [p["abstract"]] raise [KeyError] ([None]) when
    the key is missing. *)
Definition from_entry (p : entry) : option Paper :=
  title ← e_title p;
  authors ← e_authors p;
  abstract ← e_abstract p;
  Some {| title := title;
          authors := authors;
          abstract := abstract;
          year := e_year p;
          doi := e_doi p;
          url := e_url p;
          pdf_url := e_pdf_url p;
          source := default "" (e_source p);
          citations := default 0%Z (e_citations p);
          venue := e_venue p;
          arxiv_id := e_arxiv_id p;
          fields := default [] (e_fields p);
          keywords := default [] (e_keywords p);
          relevance_score := default 0%Q (e_relevance_score p);
          embedding := None |}.

(** The session file: not there, there but not readable as JSON, or
    holding a list of objects. *)
Inductive session_file :=
  | Absent
  | Unreadable
  | Stored (data : list entry).

Definition _store_session_papers (papers : list Paper) : session_file :=
  Stored (map to_dict papers).

(** Any exception while reading or building the papers gives the empty
    list. *)
Definition _load_session_papers (file : session_file) : list Paper :=
  match file with
  | Absent => []
  | Unreadable => []
  | Stored data => default [] (mapM from_entry data)
  end.

End Session.

(** ** Reference manager: [zotero_client.ZoteroClient] *)

Module Zotero.

(** [str(n)] for an integer. *)
Definition str_int (n : Z) : string :=
  DecimalString.NilZero.string_of_int (Z.to_int n).

(** Truthiness of an [Optional[int]]. *)
Definition truthy_year (o : option Z) : bool :=
  match o with
  | Some y => negb (y =? 0)%Z
  | None => false
  end.

(** The values of a Zotero item: a string, the list of creators (each
    [{"creatorType": "author", "name": n}], kept as [n]), the list of
    tags (each [{"tag": t}], kept as [t]). *)
Inductive zvalue :=
  | ZStr (s : string)
  | ZCreators (names : list string)
  | ZTags (tags : list string).

(** [if cond: item[key] = value] *)
Definition set_if (cond : bool) (key : string) (value : zvalue)
    (item : gmap string zvalue) : gmap string zvalue :=
  if cond then <[key := value]> item else item.

Definition paper_to_zotero_item (paper : Paper) : gmap string zvalue :=
  let item_type :=
    if Py.truthy (arxiv_id paper) then "preprint" else "journalArticle" in
  let item : gmap string zvalue :=
    list_to_map
      [("itemType", ZStr item_type);
       ("title", ZStr (title paper));
       ("creators", ZCreators (take 50 (authors paper)));
       ("abstractNote",
        ZStr (if bool_decide (abstract paper = "") then ""
              else Py.take_str (N.to_nat 10000) (abstract paper)));
       ("date",
        ZStr (if truthy_year (year paper)
              then str_int (default 0%Z (year paper)) else ""));
       ("url", ZStr (if Py.truthy (url paper) then default "" (url paper) else ""));
       ("accessDate", ZStr "")] in
  let item := set_if (Py.truthy (doi paper)) "DOI"
                (ZStr (default "" (doi paper))) item in
  let item := set_if (Py.truthy (arxiv_id paper)) "repository" (ZStr "arXiv") item in
  let item := set_if (Py.truthy (arxiv_id paper)) "archiveID"
                (ZStr ("arXiv:" +:+ default "" (arxiv_id paper))) item in
  let item :=
    if Py.truthy (venue paper) then
      if bool_decide (item_type = "journalArticle")
      then <["publicationTitle" := ZStr (default "" (venue paper))]> item
      else <["repository" := ZStr (default "" (venue paper))]> item
    else item in
  let item :=
    set_if (bool_decide (fields paper ≠ [])) "tags"
      (ZTags (take 20 (fields paper))) item in
  item.

(** The library search of the client: the titles of the items found
    ([None] for an item without title), or an exception ([None]). *)
Record Client := mkClient {
  items : nat → string → Z → option (list (option string))
}.

Record zotero := mkZotero { client : option Client }.

(** [search_library], reduced to the titles [check_duplicates] reads. *)
Definition search_library (self : zotero) (query : string) (limit : Z)
    (calls : nat) : list string * nat :=
  match client self with
  | None => ([], calls)
  | Some c =>
      match items c calls query limit with
      | Some found => (map (default "") found, S calls)
      | None => ([], S calls)
      end
  end.

(** The body of the loop of [check_duplicates]. *)
Definition check_one (self : zotero) (acc : list Paper * nat) (paper : Paper)
  : list Paper * nat :=
  let '(new_papers, calls) := acc in
  let '(existing, calls) :=
    search_library self (Py.take_str 50 (title paper)) 5 calls in
  let is_duplicate :=
    existsb (λ item_title,
      bool_decide (Py.strip (Py.lower item_title) =
                   Py.strip (Py.lower (title paper)))) existing in
  if negb is_duplicate then (new_papers ++ [paper], calls)
  else (new_papers, calls).

Definition check_duplicates (self : zotero) (papers : list Paper) (calls : nat)
  : list Paper * nat :=
  match client self with
  | None => (papers, calls)
  | Some _ => foldl (check_one self) ([], calls) papers
  end.

End Zotero.

(** * Specification vocabulary *)

(** ** Deduplication *)

Module Dedup.

Import PaperAggregator.

Definition normalized (p : Paper) : string := Py.strip (Py.lower (title p)).

(** The three-tier identity rule of the record model. *)
Definition same_doi (a b : Paper) : Prop :=
  ∃ d, d ≠ "" ∧ doi a = Some d ∧ doi b = Some d.

Definition same_arxiv (a b : Paper) : Prop :=
  ∃ x, x ≠ "" ∧ arxiv_id a = Some x ∧ arxiv_id b = Some x.

Definition same_title (a b : Paper) : Prop := normalized a = normalized b.

Definition same_document (a b : Paper) : Prop :=
  same_doi a b ∨ same_arxiv a b ∨ same_title a b.

(** The record [p], arriving after the records [pre], is kept. *)
Definition survives (pre : list Paper) (p : Paper) : Prop :=
  _deduplicate (pre ++ [p]) = _deduplicate pre ++ [p].

(** The record [b], arriving after [pre] and before [post], adds
    nothing to the output: what is kept is what was kept of [pre],
    followed by records of [post]. *)
Definition discarded (pre : list Paper) (b : Paper) (post : list Paper) : Prop :=
  ∃ rest, rest `sublist_of` post ∧
          _deduplicate (pre ++ b :: post) = _deduplicate pre ++ rest.

(** A reading of the loop body on the two sets alone: the identifier is
    present and already seen ([hit]), or it is recorded ([mark]). *)
Definition hit (o : option string) (ids : gset string) : bool :=
  Py.truthy o && bool_decide (default "" o ∈ ids).

Definition mark (o : option string) (ids : gset string) : gset string :=
  if Py.truthy o then {[default "" o]} ∪ ids else ids.

Definition visit (ids titles : gset string) (p : Paper)
  : gset string * gset string * bool :=
  if hit (doi p) ids then (ids, titles, false)
  else
    let ids1 := mark (doi p) ids in
    if hit (arxiv_id p) ids1 then (ids1, titles, false)
    else
      let ids2 := mark (arxiv_id p) ids1 in
      if bool_decide (normalized p ∈ titles) then (ids2, titles, false)
      else (ids2, {[normalized p]} ∪ titles, true).

(** The two sets after a run over [ps], and the records kept by it. *)
Fixpoint scan (ids titles : gset string) (ps : list Paper)
  : gset string * gset string :=
  match ps with
  | [] => (ids, titles)
  | p :: ps' => let '(i, t, _) := visit ids titles p in scan i t ps'
  end.

Fixpoint kept (ids titles : gset string) (ps : list Paper) : list Paper :=
  match ps with
  | [] => []
  | p :: ps' =>
      let '(i, t, b) := visit ids titles p in
      if b then p :: kept i t ps' else kept i t ps'
  end.

(** Three records for the examples: [survey] and [preprint] share a
    DOI, [preprint] and [reprint] share a normalized title. *)
Definition survey : Paper :=
  with_ids (paper0 "Graph Survey" ["A"] "") (Some "10.1/x") None.
Definition preprint : Paper :=
  with_ids (paper0 "Deep Learning" ["B"] "") (Some "10.1/x") None.
Definition reprint : Paper :=
  with_ids (paper0 " deep learning " ["C"] "") None None.

End Dedup.

(** ** Ranking *)

Module Ranking.

Import AISearchEngine.

(** The distinct lower-case words of the query, in order of first
    occurrence. *)
Definition distinct_query_words (query : string) : list string :=
  remove_dups (Py.split (Py.lower query)).

(** The keyword score in the words of the specification: the number of
    distinct query words found in the lower-cased title and abstract,
    divided by the number of distinct query words; 0 for a query
    without words. *)
Definition overlap_score (query : string) (p : Paper) : Q :=
  let words := distinct_query_words query in
  let text := Py.lower (title p +:+ " " +:+ abstract p) in
  let present := length (List.filter (λ w, Py.contains w text) words) in
  match words with
  | [] => 0
  | _ => inject_Z (Z.of_nat present) / inject_Z (Z.of_nat (length words))
  end.

(** Engines and records for the examples.  [flaky] answers the first
    call (the query embedding) and fails every later one. *)
Definition no_client : engine := mkEngine None.

Definition flaky : engine :=
  mkEngine (Some (mkClient (λ n _, if bool_decide (n = 0%nat) then Some [1%Q] else None))).

Definition unit_similarity (a b : list Q) : Q := 1.

Definition covid_paper : Paper :=
  paper0 "Vaccines" ["A"] "A study of COVID vaccine efficacy".

Definition five : list Paper :=
  map (λ t, paper0 t [] "") ["p1"; "p2"; "p3"; "p4"; "p5"].

(** The ranking of [papers] is the one of the keyword strategy. *)
Definition keyword_ranked (cosine_similarity : list Q → list Q → Q)
    (self : engine) (papers : list Paper) (query : string)
    (top_k : option Z) (calls : nat) : Prop :=
  (rank_papers_by_query cosine_similarity self papers query top_k calls).1 =
  _rank_by_keywords papers query top_k.

(** The length left by [truncate] on a list of [n] records. *)
Definition capped (top_k : option Z) (n : nat) : nat :=
  match top_k with
  | None => n
  | Some k =>
      if (k =? 0)%Z then n
      else if (0 <? k)%Z then Z.to_nat k `min` n
      else Z.to_nat (Z.of_nat n + k)
  end.

End Ranking.

(** ** Source adapters *)

Module Adapters.

(** A Semantic Scholar item without a title, and an arXiv result with
    an empty one. *)
Definition untitled_item : SemanticScholarAPI.item :=
  SemanticScholarAPI.mkItem None None (Some "An abstract") (Some 2021%Z)
    (Some 7%Z) None None None None None.

Definition untitled_result : ArxivAPI.result :=
  ArxivAPI.mkResult "" ["A"] "A summary" (Some 2021%Z) None
    "http://arxiv.org/abs/2101.00001v1" None ["cs.LG"].

(** The citation gate of the Semantic Scholar loop. *)
Definition cited_enough (min_citations : Z) (it : SemanticScholarAPI.item) : bool :=
  (min_citations <=? default 0%Z (SemanticScholarAPI.citationCount it))%Z.

End Adapters.

(** ** Index selection *)

Module Selection.

Import PaperFinder.

(** A token of a selection string: a single number or an inclusive
    range ["N-M"]. *)
Inductive token :=
  | Single (n : Z)
  | Range (start end_ : Z).

(** The token written by one comma-separated piece, if it is one. *)
Definition parse_token (part : string) : option token :=
  let part := Py.strip part in
  if Py.has_char "-" part then
    match Py.split_on "-" part with
    | [a; b] =>
        match int a, int b with
        | Some start, Some end_ => Some (Range start end_)
        | _, _ => None
        end
    | _ => None
    end
  else Single <$> int part.

(** The positions a token names. *)
Definition covers (t : token) (i : Z) : bool :=
  match t with
  | Single n => (i =? n)%Z
  | Range start end_ => (start <=? i)%Z && (i <=? end_)%Z
  end.

Definition part_names (part : string) (i : Z) : bool :=
  match parse_token part with
  | Some t => covers t i
  | None => false
  end.

(** Position [i] is named by some token of the selection string;
    pieces that are no token name nothing. *)
Definition names (indices_str : string) (i : Z) : bool :=
  existsb (λ part, part_names part i) (Py.split_on "," indices_str).

(** The in-range positions named by the string, in ascending order,
    and the papers at these positions. *)
Definition positions (papers : list Paper) (indices_str : string) : list Z :=
  List.filter (names indices_str) (seqZ 1 (Z.of_nat (length papers))).

Definition at_positions (papers : list Paper) (ps : list Z) : list Paper :=
  map (λ i : Z, papers !!! Z.to_nat (i - 1)) ps.

Definition select (papers : list Paper) (indices_str : string) : list Paper :=
  at_positions papers (positions papers indices_str).

End Selection.

(** ** Further vocabulary for deduplication *)

Module DedupMore.

Import PaperAggregator Dedup.

(** No two records of the list, at different positions, are the same
    document. *)
Definition duplicate_free (l : list Paper) : Prop :=
  ∀ i j a b, (i < j)%nat → l !! i = Some a → l !! j = Some b →
             ¬ same_document a b.

(** The identifiers a record brings to the index: its DOI and its
    arXiv id, when present and non-empty. *)
Definition id_keys (p : Paper) : list string :=
  (if Py.truthy (doi p) then [default "" (doi p)] else []) ++
  (if Py.truthy (arxiv_id p) then [default "" (arxiv_id p)] else []).

End DedupMore.

(** ** Further vocabulary for ranking *)

Module RankingMore.

Import AISearchEngine.

(** [a] may stand before [b] in a keyword ranking: a higher score, or
    an equal score and at least as many citations. *)
Definition keyword_order (a b : Paper) : Prop :=
  (relevance_score b < relevance_score a)%Q ∨
  (relevance_score a == relevance_score b ∧ (citations b ≤ citations a)%Z).

(** [a] may stand before [b] in a ranking by score. *)
Definition score_order (a b : Paper) : Prop :=
  (relevance_score b <= relevance_score a)%Q.

(** A record without the two fields the ranker writes. *)
Definition bare (p : Paper) : Paper :=
  mkPaper (title p) (authors p) (abstract p) (year p) (doi p) (url p)
    (pdf_url p) (source p) (citations p) (venue p) (arxiv_id p) (fields p)
    (keywords p) 0 None.

Definition has_abstract (p : Paper) : bool :=
  negb (bool_decide (abstract p = "")).

(** A client that embeds every text as the same vector. *)
Definition steady : engine :=
  mkEngine (Some (mkClient (λ _ _, Some [1%Q]))).

End RankingMore.

(** ** Records for the year-range examples *)

Module YearExamples.

Definition dated (t : string) (y : option Z) : Paper :=
  mkPaper t [] "" y None None None "" 0 None None [] [] 0 None.

Definition shelf : list Paper :=
  [dated "old" (Some 1999%Z); dated "undated" None; dated "new" (Some 2023%Z)].

End YearExamples.

(** ** Further vocabulary for the filter engine *)

Module FilterMore.

Import MultiDimensionalFilter.

(** A record satisfies every active structural predicate. *)
Definition passes (year_range : option (Z * Z)) (min_citations : Z)
    (max_citations : option Z) (fields : option (list string)) (has_pdf : bool)
    (author_contains venue_contains : option string) (p : Paper) : bool :=
  match year_range with
  | Some (start, end_) => year_ok start end_ p
  | None => true
  end &&
  (if (0 <? min_citations)%Z then (min_citations <=? citations p)%Z else true) &&
  match max_citations with
  | Some m => (citations p <=? m)%Z
  | None => true
  end &&
  (if nonempty fields
   then fields_ok (map Py.lower (default [] fields)) p else true) &&
  (if has_pdf then Py.truthy (pdf_url p) else true) &&
  (if Py.truthy author_contains
   then author_ok (Py.lower (default "" author_contains)) p else true) &&
  (if Py.truthy venue_contains
   then venue_ok (Py.lower (default "" venue_contains)) p else true).

End FilterMore.

(** ** Vocabulary for the session file *)

Module SessionMore.

(** A record as the session file gives it back: without embedding. *)
Definition without_embedding (p : Paper) : Paper :=
  mkPaper (title p) (authors p) (abstract p) (year p) (doi p) (url p)
    (pdf_url p) (source p) (citations p) (venue p) (arxiv_id p) (fields p)
    (keywords p) (relevance_score p) None.

(** An object that lacks one of the three keys read with [p[...]]. *)
Definition lacks_required_key (e : Session.entry) : Prop :=
  Session.e_title e = None ∨ Session.e_authors e = None ∨
  Session.e_abstract e = None.

Definition damaged : Session.entry :=
  Session.mkEntry None (Some ["A"]) (Some "text") None None None None None None
    None None None None None.

End SessionMore.

(** ** Examples for the reference manager *)

Module ZoteroExamples.

(** A library whose search always fails, and one that finds nothing. *)
Definition offline : Zotero.zotero :=
  Zotero.mkZotero (Some (Zotero.mkClient (λ _ _ _, None))).

Definition empty_library : Zotero.zotero :=
  Zotero.mkZotero (Some (Zotero.mkClient (λ _ _ _, Some []))).

End ZoteroExamples.

(** * Properties *)

(** ** Deduplication *)

Module DedupFacts.

Import PaperAggregator Dedup.

Lemma loop_body_visit p st :
  loop_body p st =
  let '(ids, titles, b) := visit (seen_ids st) (seen_titles st) p in
  (mkLocals ids titles (unique_papers st ++ if b then [p] else []),
   if b then Some tt else None).
Proof.
  destruct st as [ids titles out].
  unfold loop_body, visit, check_id, hit, mark, bind, when, id_seen, add_id,
    title_seen, add_title, append, continue, ret, normalized; simpl.
  repeat (case_match; simpl in *; simplify_eq; rewrite ?app_nil_r; try done).
Qed.

Lemma step_visit p st :
  step st p =
  let '(ids, titles, b) := visit (seen_ids st) (seen_titles st) p in
  mkLocals ids titles (unique_papers st ++ if b then [p] else []).
Proof.
  unfold step. rewrite loop_body_visit.
  by destruct (visit (seen_ids st) (seen_titles st) p) as [[??] ?].
Qed.

Lemma run_spec ps st :
  run st ps =
  mkLocals (scan (seen_ids st) (seen_titles st) ps).1
           (scan (seen_ids st) (seen_titles st) ps).2
           (unique_papers st ++ kept (seen_ids st) (seen_titles st) ps).
Proof.
  revert st. induction ps as [|p ps IH]; intros st; simpl.
  - rewrite app_nil_r. by destruct st.
  - unfold run in *. rewrite IH, step_visit.
    destruct (visit (seen_ids st) (seen_titles st) p) as [[i t] [|]]; simpl;
      by rewrite <- ?app_assoc, ?app_nil_r.
Qed.

Lemma deduplicate_kept ps : _deduplicate ps = kept ∅ ∅ ps.
Proof. unfold _deduplicate. by rewrite run_spec. Qed.

Lemma scan_app ids titles l1 l2 :
  scan ids titles (l1 ++ l2) =
  scan (scan ids titles l1).1 (scan ids titles l1).2 l2.
Proof.
  revert ids titles. induction l1 as [|p l1 IH]; intros ids titles; simpl; [done|].
  destruct (visit ids titles p) as [[i t] b]. apply IH.
Qed.

Lemma kept_app ids titles l1 l2 :
  kept ids titles (l1 ++ l2) =
  kept ids titles l1 ++
  kept (scan ids titles l1).1 (scan ids titles l1).2 l2.
Proof.
  revert ids titles. induction l1 as [|p l1 IH]; intros ids titles; simpl; [done|].
  destruct (visit ids titles p) as [[i t] [|]]; simpl; by rewrite IH.
Qed.

Lemma kept_sublist ids titles ps : kept ids titles ps `sublist_of` ps.
Proof.
  revert ids titles. induction ps as [|p ps IH]; intros ids titles; simpl; [done|].
  destruct (visit ids titles p) as [[i t] [|]].
  - by apply sublist_skip.
  - by apply sublist_cons.
Qed.

(** The sets only grow. *)
Lemma visit_mono ids titles p i t b :
  visit ids titles p = (i, t, b) → ids ⊆ i ∧ titles ⊆ t.
Proof.
  unfold visit, mark. intros H.
  repeat (case_match; simplify_eq); set_solver.
Qed.

Lemma scan_mono ids titles ps :
  ids ⊆ (scan ids titles ps).1 ∧ titles ⊆ (scan ids titles ps).2.
Proof.
  revert ids titles. induction ps as [|p ps IH]; intros ids titles; simpl; [done|].
  destruct (visit ids titles p) as [[i t] b] eqn:E.
  apply visit_mono in E as [? ?]. destruct (IH i t) as [? ?].
  split; by etrans.
Qed.

(** A record is dropped as soon as one of its keys is in the index. *)
Lemma visit_dropped ids titles p :
  hit (doi p) ids = true ∨ hit (arxiv_id p) ids = true ∨ normalized p ∈ titles →
  (visit ids titles p).2 = false.
Proof.
  unfold visit. intros H.
  destruct (hit (doi p) ids) eqn:Hd; [done|].
  destruct (hit (arxiv_id p) (mark (doi p) ids)) eqn:Ha; [done|].
  destruct (bool_decide (normalized p ∈ titles)) eqn:Ht; [done|].
  exfalso. apply bool_decide_eq_false in Ht.
  destruct H as [H|[H|H]]; [done| |done].
  unfold hit, mark in *.
  apply andb_true_iff in H as [Htr Hin]. rewrite Htr in Ha. simpl in Ha.
  apply bool_decide_eq_true in Hin. apply bool_decide_eq_false in Ha.
  apply Ha. destruct (Py.truthy (doi p)); set_solver.
Qed.

(** A present DOI is in the index after the visit, kept or not. *)
Lemma visit_records_doi ids titles p :
  Py.truthy (doi p) = true → default "" (doi p) ∈ (visit ids titles p).1.1.
Proof.
  intros Htr. unfold visit, hit, mark. rewrite Htr.
  destruct (bool_decide (default "" (doi p) ∈ ids)) eqn:E; cbn [andb fst snd].
  - by apply bool_decide_eq_true in E.
  - repeat (case_match; cbn [fst snd]); set_solver.
Qed.

(** All keys of a kept record are in the index after the visit. *)
Lemma visit_kept_records ids titles p :
  (visit ids titles p).2 = true →
  (Py.truthy (arxiv_id p) = true →
   default "" (arxiv_id p) ∈ (visit ids titles p).1.1) ∧
  normalized p ∈ (visit ids titles p).1.2.
Proof.
  unfold visit, mark.
  repeat (case_match; cbn [fst snd]); try done; intros _; split; set_solver.
Qed.

(** A record kept against a larger index is kept against a smaller
    one, and the indexes stay ordered. *)
Lemma visit_kept_subset ids1 t1 ids2 t2 p :
  ids2 ⊆ ids1 → t2 ⊆ t1 →
  (visit ids1 t1 p).2 = true →
  (visit ids2 t2 p).2 = true ∧
  (visit ids2 t2 p).1.1 ⊆ (visit ids1 t1 p).1.1 ∧
  (visit ids2 t2 p).1.2 ⊆ (visit ids1 t1 p).1.2.
Proof.
  intros Hi Ht. unfold visit, hit, mark.
  destruct (Py.truthy (doi p)), (Py.truthy (arxiv_id p)); cbn [andb];
    repeat (case_bool_decide; cbn [fst snd]); try done; intros _;
    try (exfalso; set_solver); (split; [done|split; set_solver]).
Qed.

Lemma kept_idem ps : ∀ ids1 t1 ids2 t2,
  ids2 ⊆ ids1 → t2 ⊆ t1 →
  kept ids2 t2 (kept ids1 t1 ps) = kept ids1 t1 ps.
Proof.
  induction ps as [|p ps IH]; intros ids1 t1 ids2 t2 Hi Ht; simpl; [done|].
  destruct (visit ids1 t1 p) as [[i t] b] eqn:E.
  pose proof (visit_mono _ _ _ _ _ _ E) as [Hmi Hmt].
  destruct b.
  - destruct (visit_kept_subset ids1 t1 ids2 t2 p Hi Ht) as (Hk & Hsi & Hst).
    { by rewrite E. }
    simpl. rewrite E in Hsi, Hst. simpl in Hsi, Hst.
    destruct (visit ids2 t2 p) as [[i2 t2'] b2]. simpl in *. subst b2.
    f_equal. by apply IH.
  - apply IH; by etrans.
Qed.

Lemma survives_visit l1 a :
  survives l1 a →
  (visit (scan ∅ ∅ l1).1 (scan ∅ ∅ l1).2 a).2 = true.
Proof.
  unfold survives. rewrite !deduplicate_kept, kept_app. intros H.
  apply app_inv_head in H. simpl in H.
  destruct (visit _ _ a) as [[i t] [|]]; [done|discriminate].
Qed.

Lemma truthy_Some d : d ≠ "" → Py.truthy (Some d) = true.
Proof. intros H. unfold Py.truthy. by rewrite bool_decide_eq_false_2. Qed.

(** The index reached after [l1 ++ a :: l2], in terms of the visit of [a]. *)
Lemma scan_through ids titles l1 a l2 :
  let s1 := scan ids titles l1 in
  let v := visit s1.1 s1.2 a in
  v.1.1 ⊆ (scan ids titles (l1 ++ a :: l2)).1 ∧
  v.1.2 ⊆ (scan ids titles (l1 ++ a :: l2)).2.
Proof.
  simpl. rewrite scan_app. simpl.
  destruct (visit _ _ a) as [[i t] b]. simpl. apply scan_mono.
Qed.

Lemma discarded_of_dropped pre b post :
  (visit (scan ∅ ∅ pre).1 (scan ∅ ∅ pre).2 b).2 = false →
  discarded pre b post.
Proof.
  intros H. unfold discarded. rewrite !deduplicate_kept, kept_app. simpl.
  destruct (visit _ _ b) as [[i t] k]. simpl in H. subst k.
  eexists. split; [|done]. apply kept_sublist.
Qed.

Lemma first_seen_wins l1 a l2 b l3 :
  same_doi a b ∨ (same_document a b ∧ survives l1 a) →
  discarded (l1 ++ a :: l2) b l3.
Proof.
  intros H. apply discarded_of_dropped, visit_dropped.
  destruct (scan_through ∅ ∅ l1 a l2) as [Hids Htitles]. simpl in *.
  assert (Hdoi : same_doi a b → hit (doi b) (scan ∅ ∅ (l1 ++ a :: l2)).1 = true).
  { intros (d & Hne & Ha & Hb). unfold hit. rewrite Hb, truthy_Some by done.
    simpl. apply bool_decide_eq_true, Hids.
    pose proof (visit_records_doi (scan ∅ ∅ l1).1 (scan ∅ ∅ l1).2 a) as Hrec.
    rewrite Ha in Hrec. apply Hrec. by apply truthy_Some. }
  destruct H as [H|[H Hs]]; [left; auto|].
  apply survives_visit, visit_kept_records in Hs as [Harx Htit].
  destruct H as [H|[(x & Hne & Ha & Hb)|H]]; [left; auto| |].
  - right; left. unfold hit. rewrite Hb, truthy_Some by done. simpl.
    apply bool_decide_eq_true, Hids. rewrite Ha in Harx. apply Harx.
    by apply truthy_Some.
  - right; right. unfold same_title in H. rewrite <- H. by apply Htitles.
Qed.

Lemma same_doi_pair a b :
  same_doi a b → arxiv_id a ≠ doi a → _deduplicate [a; b] = [a].
Proof.
  intros (d & Hne & Ha & Hb) Hx. rewrite deduplicate_kept. simpl.
  unfold visit at 1. unfold hit, mark. rewrite Ha, truthy_Some by done. simpl.
  rewrite bool_decide_eq_false_2 by set_solver.
  assert (Harx : Py.truthy (arxiv_id a) &&
                 bool_decide (default "" (arxiv_id a) ∈ ({[d]} ∪ ∅ : gset string)) = false).
  { destruct (arxiv_id a) as [x|] eqn:Ex; [|done]. simpl.
    apply andb_false_iff. right. apply bool_decide_eq_false.
    intros Hin. apply Hx. f_equal. set_solver. }
  rewrite Harx. rewrite bool_decide_eq_false_2 by set_solver.
  match goal with |- context [visit ?i ?t b] =>
    pose proof (visit_dropped i t b) as Hd; destruct (visit i t b) as [[i' t'] k] end.
  simpl in Hd. rewrite Hd; [done|]. left. unfold hit.
  rewrite Hb, truthy_Some by done. simpl. apply bool_decide_eq_true.
  destruct (Py.truthy (arxiv_id a)); set_solver.
Qed.

(** The scenario of the specification: two records with one DOI and
    one title, then a third one; the first and the third are kept. *)
Example deduplicate_scenario :
  let a5 := with_ids (paper0 "A" [] "") (Some "10.1/x") None in
  let a50 := with_ids (paper0 "A" ["other"] "") (Some "10.1/x") None in
  let b := paper0 "B" [] "" in
  _deduplicate [a5; a50; b] = [a5; b].
Proof. vm_compute. reflexivity. Qed.

(** C1, as stated, fails: [preprint] and [reprint] are the same document
    by their normalized titles, yet the later one, [reprint], is kept.
    [preprint] was dropped on its DOI before its title was recorded. *)
Lemma deduplicate_later_duplicate_kept :
  same_document preprint reprint ∧
  _deduplicate [survey; preprint; reprint] = [survey; reprint] ∧
  ¬ discarded [survey; preprint] reprint [].
Proof.
  split; [|split].
  - right; right. vm_compute. reflexivity.
  - vm_compute. reflexivity.
  - intros (rest & Hsub & Heq). apply sublist_nil_r in Hsub. subst rest.
    vm_compute in Heq. discriminate Heq.
Qed.

(** C1 (amended): a record that matches an earlier one by a non-empty
    DOI is always discarded; a record that is the same document as an
    earlier one under any tier of the identity rule is discarded when
    that earlier record was kept.  In particular, of two records with
    the same non-empty DOI, only the first is kept, provided the first
    one's arXiv id is not the very string of its DOI. *)
Theorem deduplicate_first_seen_wins :
  (∀ l1 a l2 b l3,
     same_doi a b ∨ (same_document a b ∧ survives l1 a) →
     discarded (l1 ++ a :: l2) b l3) ∧
  (∀ a b, same_doi a b → arxiv_id a ≠ doi a → _deduplicate [a; b] = [a]).
Proof.
  split.
  - intros l1 a l2 b l3. apply first_seen_wins.
  - intros a b. apply same_doi_pair.
Qed.

Lemma deduplicate_first_seen_wins_witness :
  discarded ([survey] ++ reprint :: []) preprint [] ∧
  _deduplicate [survey; preprint] = [survey].
Proof.
  split.
  - apply (proj1 deduplicate_first_seen_wins [survey] reprint [] preprint []).
    right. split.
    + right; right. vm_compute. reflexivity.
    + vm_compute. reflexivity.
  - apply (proj2 deduplicate_first_seen_wins survey preprint).
    + exists "10.1/x". split; [discriminate|split; reflexivity].
    + discriminate.
Defined.

(** C2: deduplication is idempotent. *)
Theorem deduplicate_idempotent (papers : list Paper) :
  _deduplicate (_deduplicate papers) = _deduplicate papers.
Proof. rewrite !deduplicate_kept. by apply kept_idem. Qed.

End DedupFacts.

(** ** Ranking *)

Module RankingFacts.

Import AISearchEngine Ranking.

Section Sorting.

Context {A : Type} (gtb : A → A → bool).

Lemma insert_desc_Permutation x l : insert_desc gtb x l ≡ₚ x :: l.
Proof.
  induction l as [|y l IH]; simpl; [done|].
  destruct (gtb y x); [|done].
  rewrite IH. apply perm_swap.
Qed.

Lemma sort_desc_Permutation l : sort_desc gtb l ≡ₚ l.
Proof.
  induction l as [|x l IH]; simpl; [done|].
  unfold sort_desc in *. simpl. by rewrite insert_desc_Permutation, IH.
Qed.

Lemma sort_desc_length l : length (sort_desc gtb l) = length l.
Proof. apply Permutation_length, sort_desc_Permutation. Qed.

End Sorting.

Lemma Forall_of_sublist {A} (P : A → Prop) (l k : list A) :
  l `sublist_of` k → Forall P k → Forall P l.
Proof.
  rewrite !Forall_forall. intros Hsub Hk x Hx.
  apply Hk. by eapply elem_of_sublist.
Qed.

Lemma slice_to_sublist {A} k (l : list A) : Py.slice_to k l `sublist_of` l.
Proof. unfold Py.slice_to. case_match; apply sublist_take. Qed.

Lemma truncate_sublist top_k l : truncate top_k l `sublist_of` l.
Proof. unfold truncate. case_match; [apply slice_to_sublist|done]. Qed.

Lemma filter_length_Permutation {A} (f : A → bool) l l' :
  l ≡ₚ l' → length (List.filter f l) = length (List.filter f l').
Proof.
  induction 1 as [|x l l' _ IH|x y l|l l' l'' _ IH1 _ IH2]; simpl.
  - done.
  - destruct (f x); simpl; by rewrite IH.
  - by destruct (f x), (f y).
  - by rewrite IH1.
Qed.

Lemma query_words_elements query :
  elements (query_word_set query) ≡ₚ distinct_query_words query.
Proof.
  unfold query_word_set, distinct_query_words.
  set (l := Py.split (Py.lower query)).
  assert (Heq : (list_to_set l : gset string) = list_to_set (remove_dups l)).
  { apply set_eq. intros x.
    by rewrite !elem_of_list_to_set, elem_of_remove_dups. }
  rewrite Heq. apply elements_list_to_set, NoDup_remove_dups.
Qed.

(** The score computed by the loop is the score of the specification. *)
Lemma keyword_score_overlap query p :
  keyword_score (query_word_set query) p = overlap_score query p.
Proof.
  unfold keyword_score, overlap_score.
  pose proof (query_words_elements query) as Hperm.
  unfold size, set_size. simpl.
  rewrite (filter_length_Permutation _ _ _ Hperm).
  rewrite (Permutation_length Hperm).
  destruct (distinct_query_words query) as [|w ws] eqn:E.
  - apply Permutation_nil_r in Hperm.
    apply elements_empty_inv, leibniz_equiv in Hperm.
    by rewrite bool_decide_eq_true_2.
  - rewrite bool_decide_eq_false_2; [done|].
    intros Hempty. rewrite Hempty, elements_empty in Hperm.
    by apply Permutation_nil_cons in Hperm.
Qed.

Lemma ratio_bounds (a b : nat) :
  (a ≤ b)%nat → (0 < b)%nat →
  (0 <= inject_Z (Z.of_nat a) / inject_Z (Z.of_nat b))%Q ∧
  (inject_Z (Z.of_nat a) / inject_Z (Z.of_nat b) <= 1)%Q.
Proof.
  intros Hab Hb.
  assert (Hpos : (0 < inject_Z (Z.of_nat b))%Q).
  { change 0%Q with (inject_Z 0). rewrite <- Zlt_Qlt. lia. }
  split.
  - apply Qle_shift_div_l; [done|]. rewrite Qmult_0_l.
    change 0%Q with (inject_Z 0). rewrite <- Zle_Qle. lia.
  - apply Qle_shift_div_r; [done|]. rewrite Qmult_1_l.
    rewrite <- Zle_Qle. lia.
Qed.

Lemma filter_length_le {A} (f : A → bool) l :
  (length (List.filter f l) ≤ length l)%nat.
Proof. induction l as [|x l IH]; simpl; [done|]. destruct (f x); simpl; lia. Qed.

Lemma overlap_score_bounds query p :
  (0 <= overlap_score query p)%Q ∧ (overlap_score query p <= 1)%Q.
Proof.
  unfold overlap_score.
  destruct (distinct_query_words query) as [|w ws] eqn:E.
  - split; discriminate.
  - apply ratio_bounds; [apply filter_length_le|simpl; lia].
Qed.

Lemma rank_by_keywords_unfold papers query top_k :
  _rank_by_keywords papers query top_k =
  truncate top_k
    (sort_desc score_citations_gtb
       (map (λ p, set_score p (overlap_score query p)) papers)).
Proof.
  unfold _rank_by_keywords. do 2 f_equal.
  apply map_ext. intros p. by rewrite keyword_score_overlap.
Qed.

(** The scenario of the specification: both query words occur in the
    abstract, the score is 1. *)
Example keyword_scenario :
  Forall (λ p, relevance_score p == 1)
    (_rank_by_keywords [covid_paper] "vaccine covid" None).
Proof. vm_compute. repeat constructor. Qed.

(** C4: under keyword ranking every record of the output carries the
    overlap score of its own title and abstract, a number between 0
    and 1; the output without a cap is the input with these scores, in
    another order; and a query without words gives every record 0. *)
Theorem rank_by_keywords_score (papers : list Paper) (query : string)
    (top_k : option Z) :
  Forall (λ p, relevance_score p = overlap_score query p ∧
               (0 <= relevance_score p)%Q ∧ (relevance_score p <= 1)%Q)
    (_rank_by_keywords papers query top_k) ∧
  _rank_by_keywords papers query None ≡ₚ
    map (λ p, set_score p (overlap_score query p)) papers ∧
  (distinct_query_words query = [] →
   Forall (λ p, relevance_score p = 0%Q) (_rank_by_keywords papers query top_k)).
Proof.
  rewrite !rank_by_keywords_unfold.
  assert (Hall : Forall (λ p, relevance_score p = overlap_score query p)
            (truncate top_k (sort_desc score_citations_gtb
               (map (λ p, set_score p (overlap_score query p)) papers)))).
  { eapply Forall_of_sublist; [apply truncate_sublist|].
    rewrite sort_desc_Permutation. apply Forall_map, Forall_forall.
    intros p _. reflexivity. }
  split; [|split].
  - eapply Forall_impl; [exact Hall|]. intros p Hp. split; [done|].
    rewrite Hp. apply overlap_score_bounds.
  - apply sort_desc_Permutation.
  - intros Hnil. eapply Forall_impl; [exact Hall|]. intros p Hp.
    rewrite Hp. unfold overlap_score. by rewrite Hnil.
Qed.

Lemma rank_by_keywords_score_witness :
  Forall (λ p, relevance_score p = 0%Q) (_rank_by_keywords five "  " (Some 2%Z)).
Proof.
  apply (proj2 (proj2 (rank_by_keywords_score five "  " (Some 2%Z)))).
  vm_compute. reflexivity.
Defined.

(** *** Which tier ranks *)

Section Tiers.

Variable cosine_similarity : list Q → list Q → Q.


Lemma rank_no_client self papers query top_k calls :
  client self = None →
  rank_papers_by_query cosine_similarity self papers query top_k calls =
  (_rank_by_keywords papers query top_k, calls).
Proof. intros H. unfold rank_papers_by_query. by rewrite H. Qed.

Lemma rank_query_embedding_fails self papers query top_k calls :
  truthy_vec (get_embedding self query calls).1 = false →
  (rank_papers_by_query cosine_similarity self papers query top_k calls).1 = _rank_by_keywords papers query top_k.
Proof.
  intros H. unfold rank_papers_by_query.
  destruct (client self) as [c|] eqn:Hc; [|done].
  destruct (get_embedding self query calls) as [e n]. simpl in H.
  by rewrite H.
Qed.

Lemma rank_query_embedded self c v papers query top_k calls :
  client self = Some c →
  embeddings_create c calls (Py.take_str (N.to_nat 8000) query) = Some v →
  v ≠ [] →
  rank_papers_by_query cosine_similarity self papers query top_k calls =
  rank_semantic cosine_similarity self v papers top_k (S calls).
Proof.
  intros Hc Hv Hne. unfold rank_papers_by_query, get_embedding.
  rewrite Hc, Hv. by destruct v.
Qed.

Lemma score_record_embedding_fails self query_vec acc n p :
  abstract p ≠ "" →
  truthy_vec (compute_paper_embedding self p n).1 = false →
  (score_paper cosine_similarity self query_vec (acc, n) p).1 = acc ++ [set_score p 0].
Proof.
  intros Ha H. unfold score_paper.
  rewrite bool_decide_eq_false_2 by done.
  destruct (compute_paper_embedding self p n) as [e m]. simpl in H.
  by rewrite H.
Qed.

(** *** Length of the ranking *)

Lemma score_step_length self query_vec acc n p :
  length (score_paper cosine_similarity self query_vec (acc, n) p).1 = S (length acc).
Proof.
  unfold score_paper.
  destruct (bool_decide (abstract p = "")).
  - cbn [fst]. rewrite length_app. simpl. lia.
  - destruct (compute_paper_embedding self p n) as [e m].
    destruct (truthy_vec e); cbn [fst]; rewrite length_app; simpl; lia.
Qed.

Lemma score_fold_length self query_vec papers acc n :
  length (foldl (score_paper cosine_similarity self query_vec) (acc, n) papers).1 =
  (length acc + length papers)%nat.
Proof.
  revert acc n. induction papers as [|p papers IH]; intros acc n; cbn [foldl].
  - simpl. lia.
  - pose proof (score_step_length self query_vec acc n p) as Hstep.
    destruct (score_paper cosine_similarity self query_vec (acc, n) p) as [acc' n'].
    rewrite IH. simpl in *. lia.
Qed.

Lemma truncate_length top_k (l : list Paper) :
  length (truncate top_k l) = capped top_k (length l).
Proof.
  unfold truncate, capped, truthy_int, Py.slice_to.
  destruct top_k as [k|]; [|done]. simpl.
  destruct (k =? 0)%Z eqn:E0; simpl; [done|].
  apply Z.eqb_neq in E0.
  destruct (0 <? k)%Z eqn:Epos.
  - apply Z.ltb_lt in Epos. rewrite (proj2 (Z.leb_le 0 k)) by lia.
    by rewrite length_take.
  - apply Z.ltb_ge in Epos. rewrite (proj2 (Z.leb_gt 0 k)) by lia.
    rewrite length_take. lia.
Qed.

Lemma rank_by_keywords_length papers query top_k :
  length (_rank_by_keywords papers query top_k) = capped top_k (length papers).
Proof.
  unfold _rank_by_keywords.
  by rewrite truncate_length, sort_desc_length, length_map.
Qed.

Lemma rank_semantic_length self query_vec papers top_k calls :
  length (rank_semantic cosine_similarity self query_vec papers top_k calls).1 =
  capped top_k (length papers).
Proof.
  unfold rank_semantic.
  pose proof (score_fold_length self query_vec papers [] calls) as Hlen.
  destruct (foldl _ _ papers) as [ranked n]. simpl in *.
  by rewrite truncate_length, sort_desc_length, Hlen.
Qed.

Lemma rank_length self papers query top_k calls :
  length (rank_papers_by_query cosine_similarity self papers query top_k calls).1 = capped top_k (length papers).
Proof.
  unfold rank_papers_by_query.
  destruct (client self); [|apply rank_by_keywords_length].
  destruct (get_embedding self query calls) as [e n].
  destruct (truthy_vec e); simpl.
  - apply rank_semantic_length.
  - apply rank_by_keywords_length.
Qed.

(** With a positive cap the ranking has [min K n] records. *)
Lemma rank_length_positive_cap self papers query k calls :
  (0 < k)%Z →
  Z.of_nat (length (rank_papers_by_query cosine_similarity self papers query (Some k) calls).1) =
  Z.min k (Z.of_nat (length papers)).
Proof.
  intros Hk. rewrite rank_length. unfold capped.
  rewrite (proj2 (Z.eqb_neq k 0)) by lia.
  rewrite (proj2 (Z.ltb_lt 0 k)) by lia. lia.
Qed.

(** With the cap 0 nothing is cut. *)
Lemma rank_length_zero_cap self papers query calls :
  length (rank_papers_by_query cosine_similarity self papers query (Some 0%Z) calls).1 = length papers.
Proof. by rewrite rank_length. Qed.

End Tiers.

(** C5, as stated, fails: with a client whose query embedding succeeds
    and whose record embedding fails, the record is scored 0 by the
    semantic tier, where the keyword strategy scores it 1. *)
Lemma record_embedding_failure_stays_semantic :
  truthy_vec (get_embedding flaky "covid vaccine" 0).1 = true ∧
  (compute_paper_embedding flaky covid_paper 1).1 = None ∧
  ¬ keyword_ranked unit_similarity flaky [covid_paper] "covid vaccine" None 0.
Proof.
  split; [|split]; [reflexivity..|].
  unfold keyword_ranked. vm_compute. discriminate.
Qed.

(** C5 (amended): the keyword strategy ranks when the client is absent
    and when the query embedding call fails or returns nothing.  Once
    the query is embedded the semantic tier ranks, and there a record
    whose own embedding call fails is given the score 0. *)
Theorem rank_keyword_fallback (cosine_similarity : list Q → list Q → Q)
    (self : engine) (papers : list Paper) (query : string)
    (top_k : option Z) (calls : nat) :
  (client self = None →
   rank_papers_by_query cosine_similarity self papers query top_k calls =
   (_rank_by_keywords papers query top_k, calls)) ∧
  (truthy_vec (get_embedding self query calls).1 = false →
   keyword_ranked cosine_similarity self papers query top_k calls) ∧
  (∀ c v, client self = Some c →
     embeddings_create c calls (Py.take_str (N.to_nat 8000) query) = Some v →
     v ≠ [] →
     rank_papers_by_query cosine_similarity self papers query top_k calls =
     rank_semantic cosine_similarity self v papers top_k (S calls)) ∧
  (∀ query_vec acc n p, abstract p ≠ "" →
     truthy_vec (compute_paper_embedding self p n).1 = false →
     (score_paper cosine_similarity self query_vec (acc, n) p).1 =
     acc ++ [set_score p 0]).
Proof.
  split; [|split; [|split]].
  - apply rank_no_client.
  - apply rank_query_embedding_fails.
  - intros c v. apply rank_query_embedded.
  - intros query_vec acc n p. apply score_record_embedding_fails.
Qed.

Lemma rank_keyword_fallback_witness :
  rank_papers_by_query unit_similarity no_client five "p3" None 0 =
  (_rank_by_keywords five "p3" None, 0%nat) ∧
  (score_paper unit_similarity flaky [1%Q] ([], 1%nat) covid_paper).1 =
  [set_score covid_paper 0].
Proof.
  split.
  - apply (proj1 (rank_keyword_fallback unit_similarity no_client five "p3" None 0)).
    reflexivity.
  - apply (proj2 (proj2 (proj2
      (rank_keyword_fallback unit_similarity flaky five "p3" None 0)))
      [1%Q] [] 1%nat covid_paper).
    + discriminate.
    + reflexivity.
Defined.

(** C6: the code at the cap 0.  The ranking of five records keeps all
    five, in either tier, where [min 0 5] is 0. *)
Theorem rank_zero_cap_keeps_all :
  length (rank_papers_by_query unit_similarity no_client five "p3" (Some 0%Z) 0).1
    = 5%nat ∧
  length (rank_papers_by_query unit_similarity flaky five "p3" (Some 0%Z) 0).1
    = 5%nat ∧
  Z.min 0 (Z.of_nat (length five)) = 0%Z.
Proof. repeat split; vm_compute; reflexivity. Qed.

End RankingFacts.

(** ** Filter engine *)

Module FilterFacts.

Import AISearchEngine Ranking.

Lemma list_filter_sublist {A} (f : A → bool) (l : list A) :
  List.filter f l `sublist_of` l.
Proof.
  induction l as [|x l IH]; simpl; [done|].
  destruct (f x); [by apply sublist_skip|by apply sublist_cons].
Qed.

(** One stage of the filter: the list is narrowed or left alone. *)
Lemma stage_sublist {A} (b : bool) (f : A → bool) (l k : list A) :
  l `sublist_of` k → (if b then List.filter f l else l) `sublist_of` k.
Proof.
  intros H. destruct b; [|done].
  etrans; [apply list_filter_sublist|done].
Qed.

Lemma structural_sublist papers year_range min_citations max_citations fields
    has_pdf author_contains venue_contains :
  MultiDimensionalFilter.structural papers year_range min_citations
    max_citations fields has_pdf author_contains venue_contains
  `sublist_of` papers.
Proof.
  unfold MultiDimensionalFilter.structural.
  repeat apply stage_sublist.
  destruct max_citations as [m|].
  - etrans; [apply list_filter_sublist|].
    apply stage_sublist.
    destruct year_range as [[start end_]|]; [apply list_filter_sublist|done].
  - apply stage_sublist.
    destruct year_range as [[start end_]|]; [apply list_filter_sublist|done].
Qed.

(** C3: without a client the semantic predicate is skipped: a filter
    call with a semantic query and threshold returns what the same call
    without them returns. *)
Theorem filter_semantic_skipped (cosine_similarity : list Q → list Q → Q)
    (ai_engine : engine) (papers : list Paper) (year_range : option (Z * Z))
    (min_citations : Z) (max_citations : option Z)
    (fields : option (list string)) (has_pdf : bool) (semantic_query : string)
    (semantic_threshold threshold' : Q)
    (author_contains venue_contains : option string) (calls : nat) :
  client ai_engine = None →
  MultiDimensionalFilter.filter cosine_similarity ai_engine papers year_range
    min_citations max_citations fields has_pdf (Some semantic_query)
    semantic_threshold author_contains venue_contains calls =
  MultiDimensionalFilter.filter cosine_similarity ai_engine papers year_range
    min_citations max_citations fields has_pdf None
    threshold' author_contains venue_contains calls.
Proof.
  intros Hc. unfold MultiDimensionalFilter.filter. rewrite Hc.
  rewrite (bool_decide_eq_false_2 (is_Some None)) by (by intros [? ?]).
  by rewrite andb_false_r.
Qed.

Lemma filter_semantic_skipped_witness :
  MultiDimensionalFilter.filter unit_similarity no_client five None 0 None None
    false (Some "graph learning") 1 None None 0 =
  MultiDimensionalFilter.filter unit_similarity no_client five None 0 None None
    false None (1 # 2) None None 0.
Proof.
  apply (filter_semantic_skipped unit_similarity no_client five None 0 None
           None false "graph learning" 1 (1 # 2) None None 0).
  reflexivity.
Defined.

(** C9: without a semantic predicate the output of the filter is a
    subsequence of its input. *)
Theorem filter_subsequence (cosine_similarity : list Q → list Q → Q)
    (ai_engine : engine) (papers : list Paper) (year_range : option (Z * Z))
    (min_citations : Z) (max_citations : option Z)
    (fields : option (list string)) (has_pdf : bool) (semantic_threshold : Q)
    (author_contains venue_contains : option string) (calls : nat) :
  (MultiDimensionalFilter.filter cosine_similarity ai_engine papers year_range
     min_citations max_citations fields has_pdf None semantic_threshold
     author_contains venue_contains calls).1 `sublist_of` papers.
Proof.
  unfold MultiDimensionalFilter.filter. simpl. apply structural_sublist.
Qed.

End FilterFacts.

(** ** Source adapters *)

Module AdapterFacts.

Import Adapters.

Lemma semantic_scholar_loop data min_citations acc :
  foldl (SemanticScholarAPI.loop_body min_citations) acc data =
  acc ++ map (λ it, SemanticScholarAPI.to_paper it
                      (default 0%Z (SemanticScholarAPI.citationCount it)))
           (List.filter (cited_enough min_citations) data).
Proof.
  revert acc. induction data as [|it data IH]; intros acc; simpl.
  - by rewrite app_nil_r.
  - rewrite IH. unfold SemanticScholarAPI.loop_body, cited_enough.
    destruct (Z.ltb_spec (default 0%Z (SemanticScholarAPI.citationCount it))
                min_citations) as [Hlt|Hge].
    + by rewrite (proj2 (Z.leb_gt _ _)) by lia.
    + rewrite (proj2 (Z.leb_le _ _)) by lia. simpl.
      by rewrite <- app_assoc.
Qed.

Lemma semantic_scholar_search data min_citations :
  SemanticScholarAPI.search (Some data) min_citations =
  map (λ it, SemanticScholarAPI.to_paper it
               (default 0%Z (SemanticScholarAPI.citationCount it)))
    (List.filter (cited_enough min_citations) data).
Proof. unfold SemanticScholarAPI.search. by rewrite semantic_scholar_loop. Qed.

Lemma arxiv_loop results acc :
  foldl (λ papers r, papers ++ [ArxivAPI.to_paper r]) acc results =
  acc ++ map ArxivAPI.to_paper results.
Proof.
  revert acc. induction results as [|r rs IH]; intros acc; simpl.
  - by rewrite app_nil_r.
  - by rewrite IH, <- app_assoc.
Qed.

Lemma arxiv_search results :
  ArxivAPI.search results = map ArxivAPI.to_paper results.
Proof. unfold ArxivAPI.search. by rewrite arxiv_loop. Qed.



End AdapterFacts.

(** ** Index selection *)

Module SelectionFacts.

Import PaperFinder Selection Ranking.

(** The loop body adds to [selected] the positions its piece names. *)
Lemma loop_body_names selected part i :
  i ∈ loop_body selected part ↔ i ∈ selected ∨ part_names part i = true.
Proof.
  unfold loop_body, part_names, parse_token, unpack2.
  destruct (Py.has_char "-" (Py.strip part)).
  - destruct (Py.split_on "-" (Py.strip part)) as [|a [|b [|c l]]];
      try (split; [by left|by intros [?|?]]).
    destruct (int a) as [start|]; [|split; [by left|by intros [?|?]]].
    destruct (int b) as [end_|]; [|split; [by left|by intros [?|?]]].
    rewrite elem_of_union, elem_of_list_to_set. unfold range.
    rewrite elem_of_seqZ. simpl.
    rewrite andb_true_iff, !Z.leb_le. split; intros [?|?]; auto; right; lia.
  - destruct (int (Py.strip part)) as [n|]; simpl.
    + rewrite elem_of_union, elem_of_singleton, Z.eqb_eq. done.
    + split; [by left|by intros [?|?]].
Qed.

Lemma selected_names parts selected i :
  i ∈ foldl loop_body selected parts ↔
  i ∈ selected ∨ existsb (λ part, part_names part i) parts = true.
Proof.
  revert selected. induction parts as [|part parts IH]; intros selected; simpl.
  - split; [by left|by intros [?|?]].
  - rewrite IH, loop_body_names, orb_true_iff. tauto.
Qed.

(** [sorted] lists the set without repetition, in ascending order. *)
Lemma sorted_elem selected i : i ∈ sorted selected ↔ i ∈ selected.
Proof.
  unfold sorted. by rewrite merge_sort_Permutation, elem_of_elements.
Qed.

Lemma sorted_NoDup selected : NoDup (sorted selected).
Proof.
  unfold sorted. rewrite merge_sort_Permutation. apply NoDup_elements.
Qed.

Lemma sorted_ascending selected : StronglySorted Z.le (sorted selected).
Proof. unfold sorted. apply StronglySorted_merge_sort; apply _. Qed.

Lemma list_filter_elem {A} (f : A → bool) l x :
  x ∈ List.filter f l ↔ x ∈ l ∧ f x = true.
Proof. rewrite !list_elem_of_In. apply filter_In. Qed.

Lemma list_filter_StronglySorted {A} (R : relation A) (f : A → bool) l :
  StronglySorted R l → StronglySorted R (List.filter f l).
Proof.
  induction 1 as [|x l Hl IH Hx]; simpl; [constructor|].
  destruct (f x); [|done]. constructor; [done|].
  rewrite Forall_forall in *. intros y Hy.
  apply Hx. by apply list_filter_elem in Hy as [Hy _].
Qed.

Lemma list_filter_NoDup {A} (f : A → bool) (l : list A) :
  NoDup l → NoDup (List.filter f l).
Proof.
  induction 1 as [|x l Hx Hl IH]; simpl; [constructor|].
  destruct (f x); [|done]. constructor; [|done].
  rewrite list_filter_elem. tauto.
Qed.

Lemma seqZ_ascending_nat m (k : nat) : StronglySorted Z.le (seqZ m (Z.of_nat k)).
Proof.
  revert m. induction k as [|k IH]; intros m.
  - rewrite seqZ_nil by done. constructor.
  - rewrite seqZ_cons by lia. constructor.
    + replace (Z.pred (Z.of_nat (S k))) with (Z.of_nat k) by lia. apply IH.
    + apply Forall_forall. intros y Hy. apply elem_of_seqZ in Hy. lia.
Qed.

(** Two ascending lists without repetition and with the same elements
    are one list. *)
Lemma ascending_unique (l k : list Z) :
  StronglySorted Z.le l → StronglySorted Z.le k → NoDup l → NoDup k →
  (∀ x, x ∈ l ↔ x ∈ k) → l = k.
Proof.
  intros Hl Hk Hdl Hdk Hel.
  apply (StronglySorted_unique Z.le l k Hl Hk).
  by apply NoDup_Permutation.
Qed.

(** The positions the code keeps are the in-range positions the string
    names. *)
Lemma kept_positions papers indices_str :
  List.filter (λ i : Z, (1 <=? i)%Z && (i <=? Z.of_nat (length papers))%Z)
    (sorted (foldl loop_body ∅ (Py.split_on "," indices_str))) =
  positions papers indices_str.
Proof.
  unfold positions. apply ascending_unique.
  - apply list_filter_StronglySorted, sorted_ascending.
  - apply list_filter_StronglySorted, seqZ_ascending_nat.
  - apply list_filter_NoDup, sorted_NoDup.
  - apply list_filter_NoDup, NoDup_seqZ.
  - intros i. rewrite !list_filter_elem, sorted_elem, selected_names.
    rewrite elem_of_seqZ, andb_true_iff, !Z.leb_le. unfold names.
    rewrite elem_of_empty. split.
    + intros [[[]|Hn] Hr]. split; [lia|done].
    + intros [Hr Hn]. split; [by right|lia].
Qed.

Lemma parse_indices_select papers indices_str :
  Py.lower indices_str ≠ "all" →
  _parse_indices papers indices_str = select papers indices_str.
Proof.
  intros Hall. unfold _parse_indices, select, at_positions.
  rewrite bool_decide_eq_false_2 by done. by rewrite kept_positions.
Qed.

Lemma parse_indices_all papers indices_str :
  Py.lower indices_str = "all" → _parse_indices papers indices_str = papers.
Proof.
  intros Hall. unfold _parse_indices. by rewrite bool_decide_eq_true_2.
Qed.

Lemma seqZ_increasing_nat m (k : nat) : StronglySorted Z.lt (seqZ m (Z.of_nat k)).
Proof.
  revert m. induction k as [|k IH]; intros m.
  - rewrite seqZ_nil by done. constructor.
  - rewrite seqZ_cons by lia. constructor.
    + replace (Z.pred (Z.of_nat (S k))) with (Z.of_nat k) by lia. apply IH.
    + apply Forall_forall. intros y Hy. apply elem_of_seqZ in Hy. lia.
Qed.

Lemma positions_increasing papers indices_str :
  StronglySorted Z.lt (positions papers indices_str).
Proof. apply list_filter_StronglySorted, seqZ_increasing_nat. Qed.

Lemma positions_in_range papers indices_str :
  Forall (λ i, (1 ≤ i ≤ Z.of_nat (length papers))%Z) (positions papers indices_str).
Proof.
  apply Forall_forall. intros i Hi.
  apply list_filter_elem in Hi as [Hi _]. apply elem_of_seqZ in Hi. lia.
Qed.

(** Reading every position from 1 to the length gives the list back. *)
Lemma at_positions_all papers :
  at_positions papers (seqZ 1 (Z.of_nat (length papers))) = papers.
Proof.
  unfold at_positions. apply list_eq. intros i.
  change (map ?f ?l) with (f <$> l). rewrite list_lookup_fmap.
  destruct (decide (i < length papers)%nat) as [Hlt|Hge].
  - rewrite lookup_seqZ_lt by lia. simpl.
    replace (Z.to_nat (1 + Z.of_nat i - 1)) with i by lia.
    destruct (lookup_lt_is_Some_2 papers i Hlt) as [x Hx].
    rewrite Hx. f_equal. by apply list_lookup_total_correct.
  - rewrite lookup_seqZ_ge by lia. simpl.
    symmetry. apply lookup_ge_None. lia.
Qed.

(** The positions named depend on the pieces of the string only as a
    set. *)
Lemma names_same_pieces s1 s2 i :
  (∀ part, part ∈ Py.split_on "," s1 ↔ part ∈ Py.split_on "," s2) →
  names s1 i = names s2 i.
Proof.
  intros Hsame. unfold names.
  apply eq_true_iff_eq. rewrite !existsb_exists.
  split; intros (part & Hin & Hp); exists part; split; try done;
    apply list_elem_of_In; apply Hsame; by apply list_elem_of_In.
Qed.

Lemma list_filter_ext_all {A} (f g : A → bool) (l : list A) :
  (∀ x, f x = g x) → List.filter f l = List.filter g l.
Proof.
  intros Hfg. induction l as [|x l IH]; simpl; [done|].
  by rewrite Hfg, IH.
Qed.

(** The scenarios of the specification. *)
Example parse_indices_scenario :
  map title (_parse_indices five "1,3-4") = ["p1"; "p3"; "p4"] ∧
  _parse_indices five "9" = [].
Proof. split; vm_compute; reflexivity. Qed.






End SelectionFacts.

(** * Further properties *)

(** ** Deduplication *)

Module DedupMoreFacts.

Import PaperAggregator Dedup DedupMore DedupFacts.

(** X1: the output of deduplication is a subsequence of its input, and
    what was kept of a prefix of the input stays, in place, whatever
    arrives later. *)
Theorem deduplicate_subsequence_stable (l1 l2 : list Paper) :
  _deduplicate l1 `sublist_of` l1 ∧
  ∃ rest, rest `sublist_of` l2 ∧
          _deduplicate (l1 ++ l2) = _deduplicate l1 ++ rest.
Proof.
  rewrite !deduplicate_kept. split; [apply kept_sublist|].
  rewrite kept_app. eexists. split; [apply kept_sublist|done].
Qed.

(** The keys of a kept record were not in the index it was matched
    against. *)
Lemma kept_fresh ps : ∀ ids titles p,
  p ∈ kept ids titles ps →
  (Py.truthy (doi p) = true → default "" (doi p) ∉ ids) ∧
  (Py.truthy (arxiv_id p) = true → default "" (arxiv_id p) ∉ ids) ∧
  normalized p ∉ titles.
Proof.
  induction ps as [|q ps IH]; intros ids titles p Hp; simpl in Hp.
  { by apply elem_of_nil in Hp. }
  destruct (visit ids titles q) as [[i t] b] eqn:E.
  pose proof (visit_mono _ _ _ _ _ _ E) as [Hi Ht].
  assert (Htail : p ∈ kept i t ps →
            (Py.truthy (doi p) = true → default "" (doi p) ∉ ids) ∧
            (Py.truthy (arxiv_id p) = true → default "" (arxiv_id p) ∉ ids) ∧
            normalized p ∉ titles).
  { intros Hin. destruct (IH i t p Hin) as (H1 & H2 & H3).
    repeat split; intros; set_solver. }
  destruct b; [|by apply Htail].
  apply elem_of_cons in Hp as [->|Hp]; [|by apply Htail].
  clear Htail IH. unfold visit, hit, mark in E.
  destruct (Py.truthy (doi q)), (Py.truthy (arxiv_id q)); cbn [andb] in E;
    repeat (case_bool_decide; try discriminate E);
    repeat split; intros; try done; set_solver.
Qed.

(** After a kept record, its keys are in the index. *)
Lemma visit_kept_index ids titles p i t :
  visit ids titles p = (i, t, true) →
  (Py.truthy (doi p) = true → default "" (doi p) ∈ i) ∧
  (Py.truthy (arxiv_id p) = true → default "" (arxiv_id p) ∈ i) ∧
  normalized p ∈ t.
Proof.
  intros E.
  pose proof (visit_records_doi ids titles p) as Hd.
  pose proof (visit_kept_records ids titles p) as Hk.
  rewrite E in Hd, Hk. simpl in Hd, Hk.
  destruct (Hk eq_refl) as [Ha Ht]. by repeat split.
Qed.

Lemma kept_duplicate_free ps : ∀ ids titles,
  duplicate_free (kept ids titles ps).
Proof.
  induction ps as [|p ps IH]; intros ids titles; simpl.
  { intros i j a b _ Hi. by rewrite lookup_nil in Hi. }
  destruct (visit ids titles p) as [[i t] [|]] eqn:E; [|apply IH].
  intros n m a b Hnm Ha Hb.
  destruct m as [|m]; [lia|]. simpl in Hb.
  destruct n as [|n]; simpl in Ha.
  - injection Ha as <-.
    apply list_elem_of_lookup_2 in Hb.
    destruct (kept_fresh _ _ _ _ Hb) as (Hbd & Hba & Hbt).
    destruct (visit_kept_index _ _ _ _ _ E) as (Hpd & Hpa & Hpt).
    intros [(d & Hne & H1 & H2)|[(x & Hne & H1 & H2)|Hsame]].
    + apply Hbd; rewrite H2; [by apply truthy_Some|].
      rewrite H1 in Hpd. apply Hpd. by apply truthy_Some.
    + apply Hba; rewrite H2; [by apply truthy_Some|].
      rewrite H1 in Hpa. apply Hpa. by apply truthy_Some.
    + apply Hbt. unfold same_title in Hsame. by rewrite <- Hsame.
  - apply (IH i t n m a b); [lia|done|done].
Qed.

(** X2: no two records of the output are the same document. *)
Theorem deduplicate_duplicate_free (papers : list Paper) :
  duplicate_free (_deduplicate papers).
Proof. rewrite deduplicate_kept. apply kept_duplicate_free. Qed.

(** X3: a record whose arXiv id is the very string of its non-empty DOI
    is never kept: its DOI, just recorded, makes its arXiv id look
    already seen. *)
Theorem deduplicate_drops_self_collision (pre post : list Paper) (p : Paper) :
  Py.truthy (doi p) = true → arxiv_id p = doi p →
  discarded pre p post.
Proof.
  intros Htr Heq. apply discarded_of_dropped.
  set (ids := (scan ∅ ∅ pre).1). set (titles := (scan ∅ ∅ pre).2).
  unfold visit.
  destruct (hit (doi p) ids) eqn:Hd; [done|].
  assert (Ha : hit (arxiv_id p) (mark (doi p) ids) = true).
  { unfold hit, mark. rewrite Heq, Htr. simpl.
    apply bool_decide_eq_true. set_solver. }
  by rewrite Ha.
Qed.

Lemma deduplicate_drops_self_collision_witness :
  discarded [survey] (with_ids reprint (Some "2101.1") (Some "2101.1")) [preprint].
Proof.
  apply (deduplicate_drops_self_collision [survey]
           [preprint] (with_ids reprint (Some "2101.1") (Some "2101.1")));
    reflexivity.
Defined.

Lemma hit_false o (ids : gset string) :
  (Py.truthy o = true → default "" o ∉ ids) → hit o ids = false.
Proof.
  intros H. unfold hit. destruct (Py.truthy o); [|done].
  cbn [andb]. apply bool_decide_eq_false. by apply H.
Qed.

Lemma mark_id_keys p (ids : gset string) :
  mark (arxiv_id p) (mark (doi p) ids) = list_to_set (id_keys p) ∪ ids.
Proof.
  unfold mark, id_keys.
  destruct (Py.truthy (doi p)), (Py.truthy (arxiv_id p)); simpl; set_solver.
Qed.

Lemma id_keys_doi p :
  Py.truthy (doi p) = true → default "" (doi p) ∈ id_keys p.
Proof. intros H. unfold id_keys. rewrite H. set_solver. Qed.

Lemma id_keys_arxiv p :
  Py.truthy (arxiv_id p) = true → default "" (arxiv_id p) ∈ id_keys p.
Proof. intros H. unfold id_keys. rewrite H. set_solver. Qed.

Lemma id_keys_NoDup_distinct p :
  NoDup (id_keys p) →
  Py.truthy (doi p) = true → Py.truthy (arxiv_id p) = true →
  default "" (arxiv_id p) ≠ default "" (doi p).
Proof.
  unfold id_keys. intros Hnd Hd Ha. rewrite Hd, Ha in Hnd. simpl in Hnd.
  apply NoDup_cons in Hnd as [Hne _]. set_solver.
Qed.

Lemma kept_all ps : ∀ ids titles,
  NoDup (flat_map id_keys ps) → NoDup (map normalized ps) →
  (∀ k, k ∈ flat_map id_keys ps → k ∉ ids) →
  (∀ p, p ∈ ps → normalized p ∉ titles) →
  kept ids titles ps = ps.
Proof.
  induction ps as [|p ps IH]; intros ids titles Hk Ht Hids Htitles; [done|].
  simpl in Hk, Ht. apply NoDup_app in Hk as (Hkp & Hdisj & Hkps).
  apply NoDup_cons in Ht as [Htp Htps].
  assert (Hfresh : ∀ k, k ∈ id_keys p → k ∉ ids).
  { intros k Hin. apply Hids. simpl. apply elem_of_app. by left. }
  assert (Hv : visit ids titles p =
               (list_to_set (id_keys p) ∪ ids, {[normalized p]} ∪ titles, true)).
  { unfold visit.
    rewrite hit_false by (intros H; by apply Hfresh, id_keys_doi).
    rewrite hit_false.
    - rewrite bool_decide_eq_false_2 by (apply Htitles; by left).
      by rewrite mark_id_keys.
    - intros Ha. unfold mark.
      destruct (Py.truthy (doi p)) eqn:Hd.
      + rewrite elem_of_union, elem_of_singleton. intros [Heq|Hin].
        * by apply (id_keys_NoDup_distinct p).
        * by apply (Hfresh _ (id_keys_arxiv p Ha)).
      + by apply Hfresh, id_keys_arxiv. }
  simpl. rewrite Hv. f_equal. apply IH; [done|done|..].
  - intros k Hin. rewrite elem_of_union, elem_of_list_to_set.
    intros [Hp|Hold].
    + by apply (Hdisj k).
    + apply (Hids k); [|done]. simpl. apply elem_of_app. by right.
  - intros q Hq. rewrite elem_of_union, elem_of_singleton.
    intros [Heq|Hold].
    + apply Htp. rewrite <- Heq. apply list_elem_of_fmap. by exists q.
    + by apply (Htitles q); [right|].
Qed.

(** X4: a list whose records share no identifier and no normalized
    title comes out unchanged. *)
Theorem deduplicate_keeps_distinct (papers : list Paper) :
  NoDup (flat_map id_keys papers) → NoDup (map normalized papers) →
  _deduplicate papers = papers.
Proof.
  intros Hk Ht. rewrite deduplicate_kept.
  apply kept_all; [done|done|set_solver|set_solver].
Qed.

Lemma deduplicate_keeps_distinct_witness :
  _deduplicate [survey; reprint] = [survey; reprint].
Proof.
  apply (deduplicate_keeps_distinct [survey; reprint]).
  - apply (bool_decide_unpack (NoDup _)). vm_compute. exact I.
  - apply (bool_decide_unpack (NoDup _)). vm_compute. exact I.
Defined.

End DedupMoreFacts.

(** ** The aggregator as a whole *)

Module SearchAllFacts.

Import PaperAggregator Dedup DedupMore DedupFacts DedupMoreFacts Adapters.

(** X5: with the default sources the Semantic Scholar records come
    first: what deduplication keeps of them alone is a prefix of the
    result, followed by arXiv records in their order; no two records of
    the result are the same document; and a request that names neither
    source returns nothing. *)
Theorem search_all_semantic_scholar_first
    (ss_response : option (list SemanticScholarAPI.item)) (min_citations : Z)
    (arxiv_results : list ArxivAPI.result) :
  (∃ rest,
     rest `sublist_of` ArxivAPI.search arxiv_results ∧
     SearchAll.search_all ss_response min_citations arxiv_results None =
     _deduplicate (SemanticScholarAPI.search ss_response min_citations) ++ rest) ∧
  (∀ sources,
     duplicate_free
       (SearchAll.search_all ss_response min_citations arxiv_results sources)) ∧
  (∀ sources, "semantic_scholar" ∉ sources → "arxiv" ∉ sources →
     SearchAll.search_all ss_response min_citations arxiv_results (Some sources)
     = []).
Proof.
  split; [|split].
  - unfold SearchAll.search_all. cbn [default].
    rewrite !bool_decide_eq_true_2 by set_solver. cbn [app].
    rewrite !deduplicate_kept, kept_app.
    eexists. split; [apply kept_sublist|done].
  - intros sources. unfold SearchAll.search_all.
    rewrite deduplicate_kept. apply kept_duplicate_free.
  - intros sources Hs Ha. unfold SearchAll.search_all. cbn [default].
    by rewrite !bool_decide_eq_false_2.
Qed.

Lemma search_all_semantic_scholar_first_witness :
  SearchAll.search_all (Some [untitled_item]) 0 [untitled_result]
    (Some ["pubmed"]) = [].
Proof.
  apply (proj2 (proj2 (search_all_semantic_scholar_first
           (Some [untitled_item]) 0 [untitled_result])) ["pubmed"]).
  - rewrite elem_of_cons, elem_of_nil. intros [H|[]]. discriminate H.
  - rewrite elem_of_cons, elem_of_nil. intros [H|[]]. discriminate H.
Defined.

End SearchAllFacts.

(** ** Ranking *)

Module RankingMoreFacts.

Import AISearchEngine Ranking RankingMore RankingFacts.

Section SortedDesc.

Context {A : Type} (gtb : A → A → bool) (R : relation A).
Hypothesis R_of_false : ∀ x y, gtb y x = false → R x y.
Hypothesis R_of_true : ∀ x y, gtb y x = true → R y x.
Hypothesis R_trans : Transitive R.

Lemma insert_desc_sorted x l :
  StronglySorted R l → StronglySorted R (insert_desc gtb x l).
Proof.
  induction 1 as [|y l Hl IH Hy]; simpl.
  - repeat constructor.
  - destruct (gtb y x) eqn:E.
    + constructor; [done|].
      rewrite insert_desc_Permutation. constructor; [by apply R_of_true|done].
    + constructor; [by constructor|].
      constructor; [by apply R_of_false|].
      eapply Forall_impl; [exact Hy|]. intros z Hz.
      etrans; [by apply R_of_false|done].
Qed.

Lemma sort_desc_sorted l : StronglySorted R (sort_desc gtb l).
Proof.
  induction l as [|x l IH]; [constructor|].
  unfold sort_desc in *. simpl. by apply insert_desc_sorted.
Qed.

End SortedDesc.

Lemma sublist_StronglySorted {A} (R : relation A) (l k : list A) :
  l `sublist_of` k → StronglySorted R k → StronglySorted R l.
Proof.
  induction 1 as [|x l k Hsub IH|x l k Hsub IH]; intros Hk.
  - constructor.
  - apply StronglySorted_inv in Hk as [Hk Hx].
    constructor; [by apply IH|]. by eapply Forall_of_sublist.
  - apply StronglySorted_inv in Hk as [Hk _]. by apply IH.
Qed.

Lemma Qgtb_true a b : Qgtb a b = true ↔ (b < a)%Q.
Proof.
  unfold Qgtb. rewrite negb_true_iff.
  destruct (Qle_bool a b) eqn:E.
  - apply Qle_bool_iff in E. split; [done|]. intros H. lra.
  - split; [|done]. intros _.
    destruct (Qlt_le_dec b a) as [?|Hle]; [done|].
    apply Qle_bool_iff in Hle. congruence.
Qed.

Lemma Qgtb_false a b : Qgtb a b = false ↔ (a <= b)%Q.
Proof.
  destruct (Qgtb a b) eqn:E.
  - apply Qgtb_true in E. split; [done|]. intros H. lra.
  - split; [|done]. intros _.
    destruct (Qlt_le_dec b a) as [Hlt|?]; [|done].
    apply Qgtb_true in Hlt. congruence.
Qed.

Lemma score_citations_gtb_true p q :
  score_citations_gtb p q = true ↔
  (relevance_score q < relevance_score p)%Q ∨
  (relevance_score p == relevance_score q ∧ (citations q < citations p)%Z).
Proof.
  unfold score_citations_gtb.
  rewrite orb_true_iff, andb_true_iff, Qgtb_true, Qeq_bool_iff, Z.ltb_lt.
  done.
Qed.

Lemma keyword_order_of_false p q :
  score_citations_gtb q p = false → keyword_order p q.
Proof.
  intros H. unfold keyword_order.
  destruct (Qlt_le_dec (relevance_score q) (relevance_score p)) as [?|Hle];
    [by left|].
  right.
  assert (Hn : ¬ ((relevance_score p < relevance_score q)%Q ∨
                  (relevance_score q == relevance_score p ∧
                   (citations p < citations q)%Z))).
  { rewrite <- score_citations_gtb_true. congruence. }
  split; [|].
  - destruct (Qlt_le_dec (relevance_score p) (relevance_score q)) as [Hlt|Hge].
    + exfalso. apply Hn. by left.
    + lra.
  - destruct (Z.lt_ge_cases (citations p) (citations q)) as [Hlt|?]; [|done].
    exfalso. apply Hn. right. split; [|done].
    destruct (Qlt_le_dec (relevance_score p) (relevance_score q)) as [Hlt'|Hge].
    + exfalso. apply Hn. by left.
    + lra.
Qed.

Lemma keyword_order_of_true p q :
  score_citations_gtb p q = true → keyword_order p q.
Proof.
  intros H. apply score_citations_gtb_true in H as [H|[H1 H2]].
  - by left.
  - right. split; [done|lia].
Qed.

#[local] Instance keyword_order_trans : Transitive keyword_order.
Proof.
  intros a b c [H1|[H1 H1']] [H2|[H2 H2']]; unfold keyword_order.
  - left. lra.
  - left. lra.
  - left. lra.
  - right. split; [lra|lia].
Qed.

#[local] Instance score_order_trans : Transitive score_order.
Proof. intros a b c. unfold score_order. intros. lra. Qed.

Lemma keyword_order_score a b : keyword_order a b → score_order a b.
Proof. unfold keyword_order, score_order. intros [H|[H _]]; lra. Qed.

Lemma StronglySorted_weaken {A} (R S : relation A) l :
  (∀ x y, R x y → S x y) → StronglySorted R l → StronglySorted S l.
Proof.
  intros HRS. induction 1 as [|x l Hl IH Hx]; constructor; [done|].
  eapply Forall_impl; [exact Hx|]. intros y. apply HRS.
Qed.

Lemma rank_by_keywords_keyword_order papers query top_k :
  StronglySorted keyword_order (_rank_by_keywords papers query top_k).
Proof.
  unfold _rank_by_keywords.
  eapply sublist_StronglySorted; [apply truncate_sublist|].
  apply sort_desc_sorted.
  - intros x y. apply keyword_order_of_false.
  - intros x y. apply keyword_order_of_true.
  - apply _.
Qed.

(** X6: the keyword ranking is in non-increasing order of
    (score, citations), with or without a cap. *)
Theorem rank_by_keywords_sorted (papers : list Paper) (query : string)
    (top_k : option Z) :
  StronglySorted keyword_order (_rank_by_keywords papers query top_k).
Proof. apply rank_by_keywords_keyword_order. Qed.

Lemma rank_semantic_sorted cosine_similarity self query_vec papers top_k calls :
  StronglySorted score_order
    (rank_semantic cosine_similarity self query_vec papers top_k calls).1.
Proof.
  unfold rank_semantic.
  destruct (foldl _ _ papers) as [ranked n]. simpl.
  eapply sublist_StronglySorted; [apply truncate_sublist|].
  apply sort_desc_sorted.
  - intros x y H. unfold score_order. by apply Qgtb_false in H.
  - intros x y H. unfold score_order. apply Qgtb_true in H. lra.
  - apply _.
Qed.

(** X7: whatever tier ranks, the records come out in non-increasing
    order of relevance score. *)
Theorem rank_sorted_by_score (cosine_similarity : list Q → list Q → Q)
    (self : engine) (papers : list Paper) (query : string) (top_k : option Z)
    (calls : nat) :
  StronglySorted score_order
    (rank_papers_by_query cosine_similarity self papers query top_k calls).1.
Proof.
  assert (Hkw : StronglySorted score_order (_rank_by_keywords papers query top_k)).
  { eapply StronglySorted_weaken; [apply keyword_order_score|].
    apply rank_by_keywords_keyword_order. }
  unfold rank_papers_by_query.
  destruct (client self); [|done].
  destruct (get_embedding self query calls) as [e n].
  destruct (truthy_vec e); simpl; [apply rank_semantic_sorted|done].
Qed.

(** *** The records of a ranking *)

Lemma score_paper_bare cosine_similarity self query_vec acc n p :
  map bare (score_paper cosine_similarity self query_vec (acc, n) p).1 =
  map bare acc ++ [bare p].
Proof.
  unfold score_paper.
  destruct (bool_decide (abstract p = "")); cbn [fst].
  - by rewrite map_app.
  - destruct (compute_paper_embedding self p n) as [e m].
    destruct (truthy_vec e); cbn [fst]; by rewrite map_app.
Qed.

Lemma score_fold_bare cosine_similarity self query_vec papers acc n :
  map bare (foldl (score_paper cosine_similarity self query_vec) (acc, n) papers).1 =
  map bare acc ++ map bare papers.
Proof.
  revert acc n. induction papers as [|p papers IH]; intros acc n; cbn [foldl].
  - simpl. by rewrite app_nil_r.
  - pose proof (score_paper_bare cosine_similarity self query_vec acc n p) as Hp.
    destruct (score_paper cosine_similarity self query_vec (acc, n) p) as [acc' n'].
    rewrite IH. simpl in Hp. rewrite Hp. by rewrite <- app_assoc.
Qed.

Lemma rank_by_keywords_bare papers query :
  map bare (_rank_by_keywords papers query None) ≡ₚ map bare papers.
Proof.
  unfold _rank_by_keywords, truncate. cbn [truthy_int].
  change (map bare ?l) with (bare <$> l).
  rewrite sort_desc_Permutation.
  change (bare <$> ?l) with (map bare l). by rewrite map_map.
Qed.

Lemma rank_semantic_bare cosine_similarity self query_vec papers calls :
  map bare (rank_semantic cosine_similarity self query_vec papers None calls).1
  ≡ₚ map bare papers.
Proof.
  unfold rank_semantic.
  pose proof (score_fold_bare cosine_similarity self query_vec papers [] calls) as H.
  destruct (foldl _ _ papers) as [ranked n]. simpl in H.
  unfold truncate. cbn [truthy_int fst].
  change (map bare ?l) with (bare <$> l).
  rewrite sort_desc_Permutation.
  change (bare <$> ?l) with (map bare l). by rewrite H.
Qed.

Lemma rank_uncapped_bare cosine_similarity self papers query calls :
  map bare (rank_papers_by_query cosine_similarity self papers query None calls).1
  ≡ₚ map bare papers.
Proof.
  unfold rank_papers_by_query.
  destruct (client self); [|apply rank_by_keywords_bare].
  destruct (get_embedding self query calls) as [e n].
  destruct (truthy_vec e); simpl;
    [apply rank_semantic_bare|apply rank_by_keywords_bare].
Qed.

Lemma rank_capped_uncapped cosine_similarity self papers query top_k calls :
  (rank_papers_by_query cosine_similarity self papers query top_k calls).1
  `sublist_of`
  (rank_papers_by_query cosine_similarity self papers query None calls).1.
Proof.
  unfold rank_papers_by_query, _rank_by_keywords, rank_semantic.
  destruct (client self); [|apply truncate_sublist].
  destruct (get_embedding self query calls) as [e n].
  destruct (truthy_vec e); simpl; [|apply truncate_sublist].
  destruct (foldl _ _ papers) as [ranked m]. simpl. apply truncate_sublist.
Qed.

(** X8: ranking neither loses nor invents a record.  Without a cap the
    output holds the records of the input, each once, with only the
    score and the embedding rewritten; with a cap it holds some of
    them. *)
Theorem rank_keeps_records (cosine_similarity : list Q → list Q → Q)
    (self : engine) (papers : list Paper) (query : string) (top_k : option Z)
    (calls : nat) :
  map bare (rank_papers_by_query cosine_similarity self papers query None calls).1
    ≡ₚ map bare papers ∧
  map bare (rank_papers_by_query cosine_similarity self papers query top_k calls).1
    ⊆+ map bare papers.
Proof.
  split; [apply rank_uncapped_bare|].
  rewrite <- (rank_uncapped_bare cosine_similarity self papers query calls).
  apply sublist_submseteq.
  change (map bare ?l) with (bare <$> l). apply fmap_sublist.
  apply rank_capped_uncapped.
Qed.

(** *** Embedding calls and the floor for records without abstract *)

Lemma compute_paper_embedding_calls self p n :
  (compute_paper_embedding self p n).2 =
  match client self with Some _ => S n | None => n end.
Proof.
  unfold compute_paper_embedding, get_embedding. by destruct (client self).
Qed.

Lemma score_paper_calls cosine_similarity self query_vec acc n p :
  (score_paper cosine_similarity self query_vec (acc, n) p).2 =
  if has_abstract p
  then match client self with Some _ => S n | None => n end
  else n.
Proof.
  unfold score_paper, has_abstract.
  destruct (bool_decide (abstract p = "")); cbn [snd negb]; [done|].
  pose proof (compute_paper_embedding_calls self p n) as H.
  destruct (compute_paper_embedding self p n) as [e m].
  simpl in H. by destruct (truthy_vec e).
Qed.

Lemma score_fold_calls cosine_similarity self query_vec papers acc n :
  client self ≠ None →
  (foldl (score_paper cosine_similarity self query_vec) (acc, n) papers).2 =
  (n + length (List.filter has_abstract papers))%nat.
Proof.
  intros Hc. revert acc n.
  induction papers as [|p papers IH]; intros acc n; cbn [foldl].
  - simpl. lia.
  - pose proof (score_paper_calls cosine_similarity self query_vec acc n p) as Hp.
    destruct (score_paper cosine_similarity self query_vec (acc, n) p) as [acc' n'].
    rewrite IH. simpl in Hp. subst n'. simpl.
    destruct (has_abstract p); [|done].
    destruct (client self); [|done]. simpl. lia.
Qed.

(** X9: the number of embedding requests of a ranking: none without a
    client; one when the query embedding fails; otherwise one for the
    query and one for every record that has an abstract. *)
Theorem rank_embedding_calls (cosine_similarity : list Q → list Q → Q)
    (self : engine) (papers : list Paper) (query : string) (top_k : option Z)
    (calls : nat) :
  (rank_papers_by_query cosine_similarity self papers query top_k calls).2 =
  match client self with
  | None => calls
  | Some c =>
      if truthy_vec (embeddings_create c calls (Py.take_str (N.to_nat 8000) query))
      then (S calls + length (List.filter has_abstract papers))%nat
      else S calls
  end.
Proof.
  unfold rank_papers_by_query, get_embedding.
  destruct (client self) as [c|] eqn:Hc; [|done].
  destruct (truthy_vec _); simpl; [|done].
  unfold rank_semantic.
  pose proof (score_fold_calls cosine_similarity self
    (default [] (embeddings_create c calls (Py.take_str (N.to_nat 8000) query)))
    papers [] (S calls)) as H.
  destruct (foldl _ _ papers) as [ranked n]. simpl in *.
  apply H. by rewrite Hc.
Qed.

Lemma score_paper_floor cosine_similarity self query_vec acc n p :
  Forall (λ q, abstract q = "" → relevance_score q = 0%Q) acc →
  Forall (λ q, abstract q = "" → relevance_score q = 0%Q)
    (score_paper cosine_similarity self query_vec (acc, n) p).1.
Proof.
  intros Hacc. unfold score_paper.
  case_bool_decide as Hab; cbn [fst].
  - apply Forall_app. split; [done|]. by repeat constructor.
  - destruct (compute_paper_embedding self p n) as [e m].
    destruct (truthy_vec e); cbn [fst]; apply Forall_app; split; try done;
      repeat constructor; simpl; intros; done.
Qed.

Lemma score_fold_floor cosine_similarity self query_vec papers acc n :
  Forall (λ q, abstract q = "" → relevance_score q = 0%Q) acc →
  Forall (λ q, abstract q = "" → relevance_score q = 0%Q)
    (foldl (score_paper cosine_similarity self query_vec) (acc, n) papers).1.
Proof.
  revert acc n. induction papers as [|p papers IH]; intros acc n Hacc;
    cbn [foldl]; [done|].
  pose proof (score_paper_floor cosine_similarity self query_vec acc n p Hacc) as Hp.
  destruct (score_paper cosine_similarity self query_vec (acc, n) p) as [acc' n'].
  by apply IH.
Qed.

(** X10: in the semantic tier every record without an abstract has the
    score 0, and stays in the ranking. *)
Theorem rank_semantic_abstract_floor (cosine_similarity : list Q → list Q → Q)
    (self : engine) (query_vec : list Q) (papers : list Paper)
    (top_k : option Z) (calls : nat) :
  Forall (λ q, abstract q = "" → relevance_score q = 0%Q)
    (rank_semantic cosine_similarity self query_vec papers top_k calls).1 ∧
  length (rank_semantic cosine_similarity self query_vec papers None calls).1 =
  length papers.
Proof.
  split.
  - unfold rank_semantic.
    pose proof (score_fold_floor cosine_similarity self query_vec papers [] calls
                  (Forall_nil_2 _)) as H.
    destruct (foldl _ _ papers) as [ranked n]. simpl in *.
    eapply Forall_of_sublist; [apply truncate_sublist|].
    by rewrite sort_desc_Permutation.
  - by rewrite rank_semantic_length.
Qed.

(** X11: with a positive cap [K] a ranking of [n] records has
    [min K n] records. *)
Theorem rank_positive_cap_length (cosine_similarity : list Q → list Q → Q)
    (self : engine) (papers : list Paper) (query : string) (k : Z)
    (calls : nat) :
  (0 < k)%Z →
  Z.of_nat (length
    (rank_papers_by_query cosine_similarity self papers query (Some k) calls).1) =
  Z.min k (Z.of_nat (length papers)).
Proof. apply rank_length_positive_cap. Qed.

Lemma rank_positive_cap_length_witness :
  Z.of_nat (length
    (rank_papers_by_query unit_similarity flaky five "p2" (Some 3%Z) 0).1) =
  Z.min 3 (Z.of_nat (length five)).
Proof.
  apply (rank_positive_cap_length unit_similarity flaky five "p2" 3 0). lia.
Defined.

End RankingMoreFacts.

(** ** Similar papers *)

Module SimilarFacts.

Import AISearchEngine Ranking RankingMore RankingFacts RankingMoreFacts.
Import SimilarPapers.

Lemma score_candidate_length cosine_similarity self reference ref_vec acc n p :
  length (score_candidate cosine_similarity self reference ref_vec (acc, n) p).1 =
  S (length acc).
Proof.
  unfold score_candidate.
  destruct (bool_decide (title p = title reference)); cbn [fst].
  - rewrite length_app. simpl. lia.
  - destruct (compute_paper_embedding self p n) as [e m].
    destruct (truthy_vec e); cbn [fst]; rewrite length_app; simpl; lia.
Qed.

Lemma score_candidates_length cosine_similarity self reference ref_vec papers acc n :
  length (foldl (score_candidate cosine_similarity self reference ref_vec)
            (acc, n) papers).1 = (length acc + length papers)%nat.
Proof.
  revert acc n. induction papers as [|p papers IH]; intros acc n; cbn [foldl].
  - simpl. lia.
  - pose proof (score_candidate_length cosine_similarity self reference ref_vec
                  acc n p) as Hp.
    destruct (score_candidate cosine_similarity self reference ref_vec (acc, n) p)
      as [acc' n'].
    rewrite IH. simpl in *. lia.
Qed.

Lemma slice_to_length {A} (k : Z) (l : list A) :
  (0 ≤ k)%Z → Z.of_nat (length (Py.slice_to k l)) = Z.min k (Z.of_nat (length l)).
Proof.
  intros Hk. unfold Py.slice_to.
  rewrite (proj2 (Z.leb_le 0 k)) by done. rewrite length_take. lia.
Qed.

(** X12: with a client, [find_similar_papers] returns [min top_k n] of
    its [n] candidates for every [top_k] from 0 on; without a client
    it is the keyword ranking against the reference title, which at
    [top_k = 0] returns all [n]. *)
Theorem find_similar_papers_length (cosine_similarity : list Q → list Q → Q)
    (self : engine) (reference_paper : Paper) (candidate_papers : list Paper)
    (top_k : Z) (calls : nat) :
  (client self ≠ None → (0 ≤ top_k)%Z →
   Z.of_nat (length (find_similar_papers cosine_similarity self reference_paper
                       candidate_papers top_k calls).1) =
   Z.min top_k (Z.of_nat (length candidate_papers))) ∧
  (client self = None →
   find_similar_papers cosine_similarity self reference_paper candidate_papers
     top_k calls =
   (_rank_by_keywords candidate_papers (title reference_paper) (Some top_k), calls)) ∧
  (client self = None →
   length (find_similar_papers cosine_similarity self reference_paper
             candidate_papers 0 calls).1 = length candidate_papers).
Proof.
  unfold find_similar_papers. split; [|split].
  - intros Hc Hk. destruct (client self) as [c|]; [|done].
    destruct (compute_paper_embedding self reference_paper calls) as [e n].
    destruct (truthy_vec e); cbn [negb fst].
    + pose proof (score_candidates_length cosine_similarity self reference_paper
                    (default [] e) candidate_papers [] n) as Hlen.
      destruct (foldl _ _ candidate_papers) as [scored m]. cbn [fst] in *.
      rewrite slice_to_length, sort_desc_length, Hlen by done. simpl. lia.
    + by rewrite slice_to_length.
  - intros Hc. rewrite Hc. by apply rank_no_client.
  - intros Hc. rewrite Hc. apply rank_length_zero_cap.
Qed.

Lemma find_similar_papers_length_witness :
  Z.of_nat (length (find_similar_papers unit_similarity steady covid_paper
                      five 0 0).1) = Z.min 0 (Z.of_nat (length five)) ∧
  length (find_similar_papers unit_similarity no_client covid_paper five 0 0).1 =
  length five.
Proof.
  split.
  - apply (proj1 (find_similar_papers_length unit_similarity steady covid_paper
                    five 0 0)); [discriminate|lia].
  - apply (proj2 (proj2 (find_similar_papers_length unit_similarity no_client
                           covid_paper five 0 0))). reflexivity.
Defined.

Lemma score_candidate_excludes cosine_similarity self reference ref_vec acc n p :
  Forall (λ q, title q = title reference → relevance_score q = 0%Q) acc →
  Forall (λ q, title q = title reference → relevance_score q = 0%Q)
    (score_candidate cosine_similarity self reference ref_vec (acc, n) p).1.
Proof.
  intros Hacc. unfold score_candidate.
  case_bool_decide as Ht; cbn [fst].
  - apply Forall_app. split; [done|]. by repeat constructor.
  - destruct (compute_paper_embedding self p n) as [e m].
    destruct (truthy_vec e); cbn [fst]; apply Forall_app; split; try done;
      repeat constructor; simpl; intros; done.
Qed.

Lemma score_candidates_exclude cosine_similarity self reference ref_vec papers acc n :
  Forall (λ q, title q = title reference → relevance_score q = 0%Q) acc →
  Forall (λ q, title q = title reference → relevance_score q = 0%Q)
    (foldl (score_candidate cosine_similarity self reference ref_vec)
       (acc, n) papers).1.
Proof.
  revert acc n. induction papers as [|p papers IH]; intros acc n Hacc;
    cbn [foldl]; [done|].
  pose proof (score_candidate_excludes cosine_similarity self reference ref_vec
                acc n p Hacc) as Hp.
  destruct (score_candidate cosine_similarity self reference ref_vec (acc, n) p)
    as [acc' n'].
  by apply IH.
Qed.



End SimilarFacts.

(** ** The year range of the search command *)

Module SearchCommandFacts.

Import AISearchEngine SearchCommand YearExamples.

Lemma year_stage_raises start end_ papers p :
  p ∈ papers → year_test start end_ p = None →
  year_stage start end_ papers = None.
Proof.
  intros Hin Hp. induction papers as [|q papers IH]; [by apply elem_of_nil in Hin|].
  simpl. apply elem_of_cons in Hin as [<-|Hin].
  - by rewrite Hp.
  - destruct (year_test start end_ q); [|done]. by rewrite IH.
Qed.

Lemma year_stage_total s e papers :
  year_stage (Some s) (Some e) papers =
  Some (List.filter (MultiDimensionalFilter.year_ok s e) papers).
Proof.
  induction papers as [|p papers IH]; [done|].
  simpl. rewrite IH.
  unfold year_test, MultiDimensionalFilter.year_ok.
  destruct (year p) as [y|]; [|done].
  destruct (y =? 0)%Z; [done|]. simpl.
  destruct (s <=? y)%Z; [|done]. simpl.
  by destruct (y <=? e)%Z.
Qed.

(** X14: the year filter of the search command.  With both bounds it
    is the year stage of the filter engine.  With only a lower bound
    it raises [TypeError] as soon as some paper has a year at or above
    the bound; with only an upper bound, as soon as some paper has a
    year at all. *)
Theorem year_filter_one_bound (papers : list Paper) :
  (∀ s e, (s ≠ 0 ∨ e ≠ 0)%Z →
     year_filter (Some s) (Some e) papers =
     Some (List.filter (MultiDimensionalFilter.year_ok s e) papers)) ∧
  (∀ s p y, s ≠ 0%Z → p ∈ papers → year p = Some y → y ≠ 0%Z → (s ≤ y)%Z →
     year_filter (Some s) None papers = None) ∧
  (∀ e p y, e ≠ 0%Z → p ∈ papers → year p = Some y → y ≠ 0%Z →
     year_filter None (Some e) papers = None).
Proof.
  split; [|split].
  - intros s e Hne. unfold year_filter, year_range_arg. simpl.
    assert (Ht : negb (s =? 0)%Z || negb (e =? 0)%Z = true).
    { destruct Hne as [H|H]; apply Z.eqb_neq in H; rewrite H; simpl;
        [done|apply orb_true_r]. }
    rewrite Ht. apply year_stage_total.
  - intros s p y Hs Hin Hy Hy0 Hle. unfold year_filter, year_range_arg. simpl.
    rewrite (proj2 (Z.eqb_neq s 0)) by done. simpl.
    apply (year_stage_raises _ _ _ p); [done|].
    unfold year_test. rewrite Hy, (proj2 (Z.eqb_neq y 0)) by done.
    by rewrite (proj2 (Z.leb_le s y)).
  - intros e p y He Hin Hy Hy0. unfold year_filter, year_range_arg. simpl.
    rewrite (proj2 (Z.eqb_neq e 0)) by done. simpl.
    apply (year_stage_raises _ _ _ p); [done|].
    unfold year_test. by rewrite Hy, (proj2 (Z.eqb_neq y 0)).
Qed.

Lemma year_filter_one_bound_witness :
  year_filter (Some 2020%Z) None shelf = None ∧
  year_filter (Some 2000%Z) (Some 2024%Z) shelf = Some [dated "new" (Some 2023%Z)].
Proof.
  split.
  - apply (proj1 (proj2 (year_filter_one_bound shelf)) 2020%Z
             (dated "new" (Some 2023%Z)) 2023%Z); try done.
    unfold shelf. set_solver.
  - rewrite (proj1 (year_filter_one_bound shelf) 2000%Z 2024%Z); [done|].
    left. done.
Defined.

End SearchCommandFacts.

(** ** The filter engine as an intersection *)

Module FilterMoreFacts.

Import AISearchEngine Ranking RankingMore RankingFacts RankingMoreFacts.
Import FilterMore FilterFacts.

Lemma truthy_Some_nonempty s : s ≠ "" → Py.truthy (Some s) = true.
Proof. intros H. unfold Py.truthy. by rewrite bool_decide_eq_false_2. Qed.

Lemma list_filter_all {A} (l : list A) : List.filter (λ _, true) l = l.
Proof. induction l as [|x l IH]; simpl; [done|by rewrite IH]. Qed.

Lemma list_filter_fuse {A} (f g : A → bool) (l : list A) :
  List.filter g (List.filter f l) = List.filter (λ x, f x && g x) l.
Proof.
  induction l as [|x l IH]; simpl; [done|].
  destruct (f x); simpl; [|done]. destruct (g x); by rewrite IH.
Qed.

Lemma list_filter_idem {A} (f : A → bool) (l : list A) :
  List.filter f (List.filter f l) = List.filter f l.
Proof.
  induction l as [|x l IH]; simpl; [done|].
  destruct (f x) eqn:E; simpl; [|done]. by rewrite E, IH.
Qed.

(** A stage that is switched off filters with the constant [true]. *)
Lemma stage_fuse {A} (b : bool) (f g : A → bool) (l : list A) :
  (if b then List.filter g (List.filter f l) else List.filter f l) =
  List.filter (λ x, f x && (if b then g x else true)) l.
Proof.
  destruct b; [apply list_filter_fuse|].
  induction l as [|x l IH]; simpl; [done|].
  rewrite andb_true_r. destruct (f x); by rewrite IH.
Qed.

Lemma structural_passes papers year_range min_citations max_citations fields
    has_pdf author_contains venue_contains :
  MultiDimensionalFilter.structural papers year_range min_citations
    max_citations fields has_pdf author_contains venue_contains =
  List.filter (passes year_range min_citations max_citations fields has_pdf
                 author_contains venue_contains) papers.
Proof.
  unfold MultiDimensionalFilter.structural, passes.
  assert (H1 : match year_range with
               | Some (start, end_) =>
                   List.filter (MultiDimensionalFilter.year_ok start end_) papers
               | None => papers
               end =
               List.filter (λ p, match year_range with
                                 | Some (start, end_) =>
                                     MultiDimensionalFilter.year_ok start end_ p
                                 | None => true
                                 end) papers).
  { destruct year_range as [[s e]|]; [done|by rewrite list_filter_all]. }
  cbv zeta. rewrite H1. clear H1.
  rewrite (stage_fuse (0 <? min_citations)%Z).
  assert (H3 : ∀ (f : Paper → bool),
             match max_citations with
             | Some m => List.filter (λ p, (citations p <=? m)%Z)
                           (List.filter f papers)
             | None => List.filter f papers
             end =
             List.filter (λ p, f p && match max_citations with
                                      | Some m => (citations p <=? m)%Z
                                      | None => true
                                      end) papers).
  { intros f. destruct max_citations as [m|]; [apply list_filter_fuse|].
    apply (stage_fuse false f (λ _, true)). }
  rewrite H3. clear H3.
  by rewrite !stage_fuse.
Qed.

(** X15: without a semantic predicate the filter returns exactly the
    records that satisfy every active predicate, in their order; and
    filtering its own output with the same predicates changes
    nothing. *)
Theorem filter_intersection (cosine_similarity : list Q → list Q → Q)
    (ai_engine : engine) (papers : list Paper) (year_range : option (Z * Z))
    (min_citations : Z) (max_citations : option Z)
    (fields : option (list string)) (has_pdf : bool) (semantic_threshold : Q)
    (author_contains venue_contains : option string) (calls : nat) :
  let out :=
    (MultiDimensionalFilter.filter cosine_similarity ai_engine papers year_range
       min_citations max_citations fields has_pdf None semantic_threshold
       author_contains venue_contains calls).1 in
  out = List.filter (passes year_range min_citations max_citations fields
                       has_pdf author_contains venue_contains) papers ∧
  (MultiDimensionalFilter.filter cosine_similarity ai_engine out year_range
     min_citations max_citations fields has_pdf None semantic_threshold
     author_contains venue_contains calls).1 = out.
Proof.
  unfold MultiDimensionalFilter.filter. cbn [Py.truthy andb fst].
  rewrite !structural_passes. split; [done|apply list_filter_idem].
Qed.



End FilterMoreFacts.

(** ** Source adapters, further *)

Module AdapterMoreFacts.

Import Adapters AdapterFacts RankingFacts.

(** X17: the Semantic Scholar adapter never emits a record below the
    citation threshold; an item without a citation count counts as 0;
    and the adapter emits at most one record per item. *)
Theorem semantic_scholar_citation_gate
    (data : list SemanticScholarAPI.item) (min_citations : Z) :
  Forall (λ p, (min_citations ≤ citations p)%Z ∧ source p = "semantic_scholar")
    (SemanticScholarAPI.search (Some data) min_citations) ∧
  (length (SemanticScholarAPI.search (Some data) min_citations) ≤ length data)%nat ∧
  (∀ it, SemanticScholarAPI.citationCount it = None →
     SemanticScholarAPI.search (Some [it]) min_citations =
     if (min_citations <=? 0)%Z then [SemanticScholarAPI.to_paper it 0] else []).
Proof.
  rewrite semantic_scholar_search. split; [|split].
  - apply Forall_map, Forall_forall. intros it Hit.
    apply list_elem_of_In, filter_In in Hit as [_ Hit].
    unfold cited_enough in Hit. apply Z.leb_le in Hit. by split.
  - rewrite length_map. apply filter_length_le.
  - intros it Hit. rewrite semantic_scholar_search. simpl.
    unfold cited_enough. rewrite Hit. simpl.
    destruct (min_citations <=? 0)%Z; simpl; [|done].
    by rewrite Hit.
Qed.

Lemma semantic_scholar_citation_gate_witness :
  SemanticScholarAPI.search (Some [untitled_item]) 8 = [] ∧
  SemanticScholarAPI.search
    (Some [SemanticScholarAPI.mkItem (Some "T") None None None None None None
             None None None]) 0 =
  [SemanticScholarAPI.to_paper
     (SemanticScholarAPI.mkItem (Some "T") None None None None None None
        None None None) 0].
Proof.
  split; [reflexivity|].
  apply (proj2 (proj2 (semantic_scholar_citation_gate [] 0))
           (SemanticScholarAPI.mkItem (Some "T") None None None None None None
              None None None)).
  reflexivity.
Defined.

(** The last piece of a split holds no separator and ends the string. *)
Lemma split_on_last sep s :
  ∃ w ws pre,
    Py.split_on sep s = w :: ws ∧
    Py.has_char sep (List.last (w :: ws) "") = false ∧
    s = pre +:+ List.last (w :: ws) "" ∧
    (ws = [] → pre = "").
Proof.
  induction s as [|c s IH].
  - exists "", [], "". by repeat split.
  - destruct IH as (w & ws & pre & Hsplit & Hno & Hs & Hpre).
    cbn [Py.split_on]. rewrite Hsplit. case_bool_decide as Hc.
    + exists "", (w :: ws), (String c pre).
      split; [done|]. split; [exact Hno|]. split; [|done].
      exact (f_equal (String c) Hs).
    + destruct ws as [|w' ws].
      * exists (String c w), [], "".
        split; [done|].
        assert (Hw : s = w).
        { rewrite (Hpre eq_refl) in Hs. exact Hs. }
        split; [|split; [|done]].
        -- cbn [List.last Py.has_char] in *. rewrite Hno.
           rewrite bool_decide_eq_false_2; [done|congruence].
        -- cbn [List.last]. by rewrite Hw.
      * exists (String c w), (w' :: ws), (String c pre).
        split; [done|]. split; [exact Hno|]. split; [|done].
        exact (f_equal (String c) Hs).
Qed.


End AdapterMoreFacts.

(** ** Session file *)

Module SessionFacts.

Import Session SessionMore Ranking PaperFinder Selection SelectionFacts.

Lemma from_entry_to_dict p : from_entry (to_dict p) = Some (without_embedding p).
Proof. reflexivity. Qed.

Lemma mapM_to_dict papers :
  mapM from_entry (map to_dict papers) = Some (map without_embedding papers).
Proof.
  induction papers as [|p papers IH]; [done|].
  change (mapM from_entry (map to_dict (p :: papers)))
    with (y ← from_entry (to_dict p);
          k ← mapM from_entry (map to_dict papers); mret (y :: k)).
  by rewrite from_entry_to_dict, IH.
Qed.

(** X19: the papers stored in the session file are loaded back as they
    were, except that their embeddings are gone. *)
Theorem session_round_trip (papers : list Paper) :
  _load_session_papers (_store_session_papers papers) =
  map without_embedding papers.
Proof.
  unfold _load_session_papers, _store_session_papers.
  by rewrite mapM_to_dict.
Qed.

(** X20: one object that lacks ["title"], ["authors"] or ["abstract"]
    empties the whole session, whatever the other objects hold. *)
Theorem session_one_bad_entry (data : list entry) (e : entry) :
  e ∈ data → lacks_required_key e → _load_session_papers (Stored data) = [].
Proof.
  intros Hin Hbad. unfold _load_session_papers.
  assert (Hnone : mapM from_entry data = None); [|by rewrite Hnone].
  apply eq_None_not_Some. intros [ps Hps].
  apply mapM_Some_1 in Hps.
  apply list_elem_of_lookup in Hin as [i Hi].
  destruct (Forall2_lookup_l _ _ _ _ _ Hps Hi) as (p & _ & Hp).
  unfold from_entry in Hp.
  destruct Hbad as [H|[H|H]]; rewrite H in Hp; simpl in Hp; try discriminate;
    destruct (e_title e); simpl in Hp; try discriminate;
    destruct (e_authors e); simpl in Hp; discriminate.
Qed.

Lemma session_one_bad_entry_witness :
  _load_session_papers (Stored (map to_dict five ++ [damaged])) = [].
Proof.
  apply (session_one_bad_entry (map to_dict five ++ [damaged]) damaged).
  - apply elem_of_app. right. by left.
  - by left.
Defined.

End SessionFacts.

(** ** Reference manager *)

Module ZoteroFacts.

Import Zotero ZoteroExamples Ranking.

(** X21: what ends up in the Zotero item.  The item type is "preprint"
    exactly for a paper with an arXiv id; a preprint's repository is
    its venue when it has one and "arXiv" otherwise, and it never has
    a publication title; a journal article has its venue as publication
    title and no repository; at most 50 creators and 20 tags are
    sent, and no tags key for a paper without fields. *)
Theorem paper_to_zotero_item_fields (paper : Paper) :
  let item := paper_to_zotero_item paper in
  item !! "itemType" =
    Some (ZStr (if Py.truthy (arxiv_id paper) then "preprint"
                else "journalArticle")) ∧
  item !! "repository" =
    (if Py.truthy (arxiv_id paper)
     then Some (ZStr (if Py.truthy (venue paper)
                      then default "" (venue paper) else "arXiv"))
     else None) ∧
  item !! "publicationTitle" =
    (if Py.truthy (arxiv_id paper) then None
     else if Py.truthy (venue paper)
          then Some (ZStr (default "" (venue paper))) else None) ∧
  item !! "DOI" =
    (if Py.truthy (doi paper) then Some (ZStr (default "" (doi paper)))
     else None) ∧
  item !! "creators" = Some (ZCreators (take 50 (authors paper))) ∧
  item !! "tags" =
    (match fields paper with
     | [] => None
     | _ => Some (ZTags (take 20 (fields paper)))
     end).
Proof.
  unfold paper_to_zotero_item, set_if. cbv zeta.
  destruct (Py.truthy (arxiv_id paper)), (Py.truthy (venue paper)),
    (Py.truthy (doi paper)), (fields paper) as [|f fs];
    repeat split; by simplify_map_eq.
Qed.

Lemma check_one_sublist self acc n p kept_of :
  acc `sublist_of` kept_of →
  (check_one self (acc, n) p).1 `sublist_of` kept_of ++ [p].
Proof.
  intros Hsub. unfold check_one.
  destruct (search_library self (Py.take_str 50 (title p)) 5 n) as [found m].
  destruct (negb _); cbn [fst].
  - by apply sublist_app.
  - by apply sublist_inserts_r.
Qed.

Lemma check_fold_sublist self papers acc n seen :
  acc `sublist_of` seen →
  (foldl (check_one self) (acc, n) papers).1 `sublist_of` seen ++ papers.
Proof.
  revert acc n seen. induction papers as [|p papers IH]; intros acc n seen Hsub;
    cbn [foldl].
  - by rewrite app_nil_r.
  - pose proof (check_one_sublist self acc n p seen Hsub) as Hp.
    destruct (check_one self (acc, n) p) as [acc' n'].
    replace (seen ++ p :: papers) with ((seen ++ [p]) ++ papers)
      by (by rewrite <- app_assoc).
    by apply IH.
Qed.

Lemma search_library_calls self q limit n :
  client self ≠ None → (search_library self q limit n).2 = S n.
Proof.
  intros Hc. unfold search_library.
  destruct (client self) as [c|]; [|done]. by destruct (items c n q limit).
Qed.

Lemma check_fold_calls self papers acc n :
  client self ≠ None →
  (foldl (check_one self) (acc, n) papers).2 = (n + length papers)%nat.
Proof.
  intros Hc. revert acc n.
  induction papers as [|p papers IH]; intros acc n; cbn [foldl].
  - simpl. lia.
  - assert (Hp : (check_one self (acc, n) p).2 = S n).
    { unfold check_one.
      pose proof (search_library_calls self (Py.take_str 50 (title p)) 5 n Hc) as H.
      destruct (search_library self (Py.take_str 50 (title p)) 5 n) as [found m].
      simpl in H. subst m. by destruct (negb _). }
    destruct (check_one self (acc, n) p) as [acc' n'].
    rewrite IH. simpl in *. lia.
Qed.

Lemma check_fold_nothing_found self papers acc n :
  (∀ k q, (search_library self q 5 k).1 = []) →
  (foldl (check_one self) (acc, n) papers).1 = acc ++ papers.
Proof.
  intros Hnone. revert acc n.
  induction papers as [|p papers IH]; intros acc n; cbn [foldl].
  - by rewrite app_nil_r.
  - assert (Hp : (check_one self (acc, n) p).1 = acc ++ [p]).
    { unfold check_one.
      pose proof (Hnone n (Py.take_str 50 (title p))) as H.
      destruct (search_library self (Py.take_str 50 (title p)) 5 n) as [found m].
      simpl in H. by subst found. }
    destruct (check_one self (acc, n) p) as [acc' n'].
    rewrite IH. simpl in Hp. subst acc'. by rewrite <- app_assoc.
Qed.

(** X22: [check_duplicates] returns a subsequence of the papers it is
    given; without a client it returns them all and asks nothing; with
    a client it makes one library search per paper; and when every
    search fails or finds nothing, every paper counts as new. *)
Theorem check_duplicates_subsequence (self : zotero) (papers : list Paper)
    (calls : nat) :
  (check_duplicates self papers calls).1 `sublist_of` papers ∧
  (client self = None → check_duplicates self papers calls = (papers, calls)) ∧
  (client self ≠ None →
   (check_duplicates self papers calls).2 = (calls + length papers)%nat) ∧
  ((∀ c k q, client self = Some c →
      items c k q 5 = None ∨ items c k q 5 = Some []) →
   (check_duplicates self papers calls).1 = papers).
Proof.
  unfold check_duplicates. split; [|split; [|split]].
  - destruct (client self); [|done].
    apply (check_fold_sublist self papers [] calls []). done.
  - by intros ->.
  - intros Hc. destruct (client self) eqn:E; [|done].
    apply check_fold_calls. by rewrite E.
  - intros Hnone. destruct (client self) as [c|] eqn:E; [|done].
    rewrite check_fold_nothing_found; [done|].
    intros k q. unfold search_library. rewrite E.
    by destruct (Hnone c k q eq_refl) as [-> | ->].
Qed.

Lemma check_duplicates_subsequence_witness :
  check_duplicates (mkZotero None) five 0 = (five, 0%nat) ∧
  (check_duplicates offline five 0).2 = (0 + length five)%nat ∧
  (check_duplicates offline five 0).1 = five.
Proof.
  pose proof (check_duplicates_subsequence (mkZotero None) five 0) as (_ & H1 & _).
  pose proof (check_duplicates_subsequence offline five 0) as (_ & _ & H2 & H3).
  split; [by apply H1|]. split; [by apply H2|].
  apply H3. intros c k q Hc. injection Hc as <-. by left.
Defined.

End ZoteroFacts.

(** ** Selection, session and the end of the search command *)

Module PushFacts.

Import AISearchEngine Ranking RankingMore RankingFacts RankingMoreFacts.
Import PaperFinder Selection SelectionFacts Session SessionMore SessionFacts.
Import SearchCommand SimilarFacts.

(** Reading increasing positions of the tail of a list gives a
    subsequence of that tail. *)
Lemma at_positions_sublist (f : Z → bool) (papers pre : list Paper) :
  at_positions (pre ++ papers)
    (List.filter f (seqZ (1 + Z.of_nat (length pre)) (Z.of_nat (length papers))))
  `sublist_of` papers.
Proof.
  revert pre. induction papers as [|x papers IH]; intros pre.
  - change (Z.of_nat (length [])) with 0%Z. by rewrite seqZ_nil.
  - rewrite seqZ_cons by (simpl; lia).
    replace (Z.pred (Z.of_nat (length (x :: papers))))
      with (Z.of_nat (length papers)) by (simpl; lia).
    replace (Z.succ (1 + Z.of_nat (length pre)))
      with (1 + Z.of_nat (length (pre ++ [x])))%Z
      by (rewrite length_app; simpl; lia).
    specialize (IH (pre ++ [x])). rewrite <- app_assoc in IH. simpl in IH.
    simpl. destruct (f (1 + Z.of_nat (length pre))%Z).
    + unfold at_positions. simpl.
      replace (Z.to_nat (1 + Z.of_nat (length pre) - 1)) with (length pre) by lia.
      rewrite lookup_total_app_r by lia.
      rewrite Nat.sub_diag. simpl. by apply sublist_skip.
    + by apply sublist_cons.
Qed.

Lemma select_sublist papers indices_str :
  select papers indices_str `sublist_of` papers.
Proof.
  unfold select, positions.
  exact (at_positions_sublist (names indices_str) papers []).
Qed.

Lemma at_positions_fmap (g : Paper → Paper) papers ps :
  Forall (λ i, (1 ≤ i ≤ Z.of_nat (length papers))%Z) ps →
  at_positions (map g papers) ps = map g (at_positions papers ps).
Proof.
  intros Hps. unfold at_positions. rewrite map_map.
  apply Forall_fmap_ext_1. eapply Forall_impl; [exact Hps|].
  intros i Hi. cbv beta in Hi |- *.
  change (map g papers) with (g <$> papers).
  apply list_lookup_total_fmap. lia.
Qed.

Lemma parse_indices_fmap (g : Paper → Paper) papers indices_str :
  _parse_indices (map g papers) indices_str =
  map g (_parse_indices papers indices_str).
Proof.
  destruct (decide (Py.lower indices_str = "all")) as [Hall|Hall].
  - by rewrite !parse_indices_all.
  - rewrite !parse_indices_select by done. unfold select.
    assert (Hpos : positions (map g papers) indices_str =
                   positions papers indices_str).
    { unfold positions. by rewrite length_map. }
    rewrite Hpos. apply at_positions_fmap, positions_in_range.
Qed.

(** X23: the papers selected are a subsequence of the papers offered,
    for every selection string; and selecting from a session that was
    stored and loaded back gives the papers that the same string
    selects from the original list, without their embeddings. *)
Theorem parse_indices_subsequence_of_session (papers : list Paper)
    (indices_str : string) :
  _parse_indices papers indices_str `sublist_of` papers ∧
  _parse_indices (_load_session_papers (_store_session_papers papers)) indices_str =
  map without_embedding (_parse_indices papers indices_str).
Proof.
  split.
  - destruct (decide (Py.lower indices_str = "all")) as [Hall|Hall].
    + by rewrite parse_indices_all.
    + rewrite parse_indices_select by done. apply select_sublist.
  - unfold _load_session_papers, _store_session_papers.
    rewrite mapM_to_dict. simpl. apply parse_indices_fmap.
Qed.

(** X24: the end of the search command.  For a positive limit it shows
    [min limit n] of the [n] filtered papers, with AI ranking or
    without; and the papers shown are, up to score and embedding, among
    the filtered ones. *)
Theorem search_presents_at_most_limit (cosine_similarity : list Q → list Q → Q)
    (ai_engine : engine) (ai_rank : bool) (papers : list Paper)
    (query : string) (limit : Z) (calls : nat) :
  ((0 < limit)%Z →
   Z.of_nat (length (present cosine_similarity ai_engine ai_rank papers query
                       limit calls).1) =
   Z.min limit (Z.of_nat (length papers))) ∧
  map bare (present cosine_similarity ai_engine ai_rank papers query limit calls).1
    ⊆+ map bare papers.
Proof.
  unfold present. destruct ai_rank; cbn [fst]; split.
  - intros Hl. by apply rank_length_positive_cap.
  - rewrite <- (rank_uncapped_bare cosine_similarity ai_engine papers query calls).
    apply sublist_submseteq.
    change (map bare ?l) with (bare <$> l). apply fmap_sublist.
    apply rank_capped_uncapped.
  - intros Hl. apply slice_to_length. lia.
  - apply sublist_submseteq.
    change (map bare ?l) with (bare <$> l). apply fmap_sublist.
    apply slice_to_sublist.
Qed.

Lemma search_presents_at_most_limit_witness :
  Z.of_nat (length (present unit_similarity no_client false five "p1" 2 0).1) =
  Z.min 2 (Z.of_nat (length five)).
Proof.
  apply (proj1 (search_presents_at_most_limit unit_similarity no_client false
                  five "p1" 2 0)). lia.
Defined.

End PushFacts.
